(** * Financial portal extractor: session-scoped record-processing pipeline

    Shallow embedding of [src/extrator_portal.py].

    The script drives a browser through Selenium, appends one line per
    processed CPF to a text log and finally writes an Excel workbook.  The
    embedding keeps the control flow of the script (sequencing,
    [try]/[except], [try]/[finally], the [for] loop with [continue]) in a
    state-and-exception monad over an explicit world:

    - the outside world is an oracle: every Selenium call and every call that
      creates a directory or opens a file for writing is an [Acao]; the oracle
      decides, from the calls made so far, whether it returns or raises, and
      the call is recorded in the history whatever the outcome;
    - the file system is a finite map from paths to files, changed by the
      writes that the oracle lets through (directories are not tracked);
      reading a file fails only as the kind of the file determines;
    - [logging] calls add structured records (level, format string,
      arguments) to a list;
    - every modelled exception is an instance of Python's [Exception];
      asynchronous interrupts are outside the model;
    - strings are byte strings (UTF-8); [strip] removes ASCII white space;
    - the progress percentage is an exact rational instead of a float, and the
      elapsed wall-clock time of the progress message is left out. *)

From Stdlib Require Import Ascii String QArith.
From stdpp Require Import gmap strings list pretty.

Open Scope string_scope.
Open Scope Z_scope.

(** ** Python values *)

(** The values stored in the dictionaries of the script.  A float is kept as
    its [repr], which Python guarantees to determine the float. *)
Inductive PyVal :=
| PStr (s : string)
| PInt (z : Z)
| PFloat (repr : string)
| PNone.

(** [str(v)]. *)
Definition py_str (v : PyVal) : string :=
  match v with
  | PStr s => s
  | PInt z => pretty z
  | PFloat r => r
  | PNone => "None"
  end.

(** [d.get(k, padrao)]. *)
Definition dict_get {V} (d : gmap string V) (k : string) (padrao : V) : V :=
  match d !! k with
  | Some v => v
  | None => padrao
  end.

(** White space for [str.strip()], ASCII part of [str.isspace]. *)
Definition is_space (a : ascii) : bool :=
  let n := nat_of_ascii a in
  ((9 <=? n) && (n <=? 13) || (28 <=? n) && (n <=? 32))%nat.

Fixpoint lstrip (s : string) : string :=
  match s with
  | EmptyString => EmptyString
  | String a r => if is_space a then lstrip r else s
  end.

Fixpoint rstrip (s : string) : string :=
  match s with
  | EmptyString => EmptyString
  | String a r =>
      match rstrip r with
      | EmptyString => if is_space a then EmptyString else String a EmptyString
      | r' => String a r'
      end
  end.

(** [s.strip()]. *)
Definition strip (s : string) : string := rstrip (lstrip s).

(** [not s] for a string. *)
Definition str_vazia (s : string) : bool :=
  match s with
  | EmptyString => true
  | String _ _ => false
  end.

(** The line feed written at the end of every log line. *)
Definition nl : string := String "010"%char EmptyString.

(** ** Exceptions *)

(** An exception instance: [type(exc).__name__] and its message. *)
Record Excecao := Exc { classe : string; detalhe : string }.

Definition KeyError (k : string) : Excecao := Exc "KeyError" k.
Definition FileNotFoundError (m : string) : Excecao := Exc "FileNotFoundError" m.
Definition ValueError (m : string) : Excecao := Exc "ValueError" m.
Definition JSONDecodeError (m : string) : Excecao := Exc "JSONDecodeError" m.
Definition UnicodeDecodeError (m : string) : Excecao := Exc "UnicodeDecodeError" m.
Definition ZeroDivisionError : Excecao := Exc "ZeroDivisionError" "division by zero".

Inductive Resultado (A : Type) :=
| Ok (a : A)
| Err (e : Excecao).
Arguments Ok {A} a.
Arguments Err {A} e.

(** ** Files *)

(** A workbook: its column names and its rows, one dictionary per row. *)
Record Planilha := MkPlanilha {
  colunas : list string;
  linhas : list (gmap string PyVal)
}.

Inductive Json :=
| JObjeto (d : gmap string string)
| JOutro.

(** A file is kept by what it parses as: text that is no JSON document, a
    JSON document, a workbook, or anything else. *)
Inductive Arquivo :=
| ArqTexto (conteudo : string)
| ArqJson (j : Json)
| ArqExcel (p : Planilha)
| ArqOpaco.

(** ** Calls to the outside world *)

Inductive WebDriver := Edge (driver_path : string).
Inductive WebElement := Elem (id : string).

(** One constructor per call to the outside world that may raise: the
    Selenium calls the script makes (elements are located [By.ID]; the waits
    carry the timeout of their [WebDriverWait]) and the calls that write to
    the file system ([AMakedirs p] is [os.makedirs(os.path.dirname(p),
    exist_ok=True)], [AOpen p m] is [open(p, m)] with [m] "w" or "a",
    [AToExcel p] is [DataFrame.to_excel(p)]). *)
Inductive Acao :=
| AEdge (driver_path : string)
| AGet (url : string)
| APresenca (timeout : Z) (id : string)
| AClicavel (timeout : Z) (id : string)
| AFindElement (id : string)
| AClear (el : WebElement)
| ASendKeys (el : WebElement) (texto : string)
| AClick (el : WebElement)
| ABlur (el : WebElement)
| AQuit
| AMakedirs (caminho : string)
| AOpen (caminho modo : string)
| AToExcel (caminho : string).

(** ** Logging *)

Inductive Nivel := INFO | WARNING | ERROR.

Inductive ArgLog :=
| AStr (s : string)
| AInt (z : Z)
| AReal (q : Q)
| AExc (e : Excecao).

Record Log := MkLog { nivel : Nivel; formato : string; args : list ArgLog }.

(** ** The world and the locals of [executar_extracao] *)

Abbreviation Historia := (list (Acao * option Excecao)).

Record Estado := MkEstado {
  oraculo : Historia -> Acao -> option Excecao;
  historia : Historia;
  arquivos : gmap string Arquivo;
  registro : list Log;
  var_driver : option WebDriver;
  var_resultados : list (gmap string PyVal)
}.

Definition com_historia (h : Historia) (w : Estado) : Estado :=
  MkEstado (oraculo w) h (arquivos w) (registro w) (var_driver w) (var_resultados w).
Definition com_arquivos (fs : gmap string Arquivo) (w : Estado) : Estado :=
  MkEstado (oraculo w) (historia w) fs (registro w) (var_driver w) (var_resultados w).
Definition com_registro (l : list Log) (w : Estado) : Estado :=
  MkEstado (oraculo w) (historia w) (arquivos w) l (var_driver w) (var_resultados w).
Definition com_driver (d : option WebDriver) (w : Estado) : Estado :=
  MkEstado (oraculo w) (historia w) (arquivos w) (registro w) d (var_resultados w).
Definition com_resultados (r : list (gmap string PyVal)) (w : Estado) : Estado :=
  MkEstado (oraculo w) (historia w) (arquivos w) (registro w) (var_driver w) r.

(** ** The monad *)

Definition M (A : Type) : Type := Estado -> Resultado A * Estado.

Definition ret {A} (a : A) : M A := fun w => (Ok a, w).
Definition raise {A} (e : Excecao) : M A := fun w => (Err e, w).
Definition bind {A B} (c : M A) (k : A -> M B) : M B :=
  fun w =>
    match c w with
    | (Ok a, w1) => k a w1
    | (Err e, w1) => (Err e, w1)
    end.

Declare Scope py_scope.
Delimit Scope py_scope with py.
Notation "x <- c ;; k" := (bind c (fun x => k))
  (at level 100, c at next level, right associativity) : py_scope.
Notation "c ;;; k" := (bind c (fun _ => k))
  (at level 100, right associativity) : py_scope.
Open Scope py_scope.

(** [try: c  except Exception as exc: h exc]. *)
Definition tentar {A} (c : M A) (h : Excecao -> M A) : M A :=
  fun w =>
    match c w with
    | (Ok a, w1) => (Ok a, w1)
    | (Err e, w1) => h e w1
    end.

(** [try: c  finally: f].  The [finally] block runs on both outcomes; an
    exception of the block replaces the outcome of [c]. *)
Definition try_finally {A} (c : M A) (f : M unit) : M A :=
  fun w =>
    match c w with
    | (r, w1) =>
        match f w1 with
        | (Ok _, w2) => (r, w2)
        | (Err e, w2) => (Err e, w2)
        end
    end.

(** ** Primitives *)

(** A call to the outside world: ask the oracle, record the call and its
    outcome. *)
Definition agir (a : Acao) : M unit :=
  fun w =>
    let r := oraculo w (historia w) a in
    let w1 := com_historia (historia w ++ [(a, r)])%list w in
    match r with
    | None => (Ok tt, w1)
    | Some e => (Err e, w1)
    end.

Definition logging (n : Nivel) (fmt : string) (a : list ArgLog) : M unit :=
  fun w => (Ok tt, com_registro (registro w ++ [MkLog n fmt a])%list w).

Definition logging_info := logging INFO.
Definition logging_warning := logging WARNING.
(** [logging.exception] logs at level ERROR. *)
Definition logging_exception := logging ERROR.

(** [d[k]]. *)
Definition item (d : gmap string string) (k : string) : M string :=
  match d !! k with
  | Some v => ret v
  | None => raise (KeyError k)
  end.

(** [os.path.exists(path)]. *)
Definition os_path_exists (path : string) : M bool :=
  fun w => (Ok (bool_decide (is_Some (arquivos w !! path))), w).

(** A change of the file system. *)
Definition efeito_fs (f : gmap string Arquivo -> gmap string Arquivo) : M unit :=
  fun w => (Ok tt, com_arquivos (f (arquivos w)) w).

(** [os.makedirs(os.path.dirname(path), exist_ok=True)]. *)
Definition os_makedirs_dirname (path : string) : M unit := agir (AMakedirs path).

(** [with open(path, "w") as fp: fp.write(s)]. *)
Definition escrever (path s : string) : M unit :=
  agir (AOpen path "w") ;;;
  efeito_fs (insert path (ArqTexto s)).

(** The file system after [with open(path, "a") as fp: fp.write(s)]: the
    file is created when absent. *)
Definition fs_anexar (path s : string) (fs : gmap string Arquivo) : gmap string Arquivo :=
  let novo :=
    match fs !! path with
    | None => ArqTexto s
    | Some (ArqTexto c) => ArqTexto (c ++ s)
    | Some _ => ArqOpaco
    end in
  <[path := novo]> fs.

(** [with open(path, "a") as fp: fp.write(s)]. *)
Definition anexar (path s : string) : M unit :=
  agir (AOpen path "a") ;;;
  efeito_fs (fs_anexar path s).

(** [x / y] on integers. *)
Definition py_truediv (x y : Z) : M Q :=
  if Z.eqb y 0 then raise ZeroDivisionError
  else ret (inject_Z x / inject_Z y)%Q.

(** ** Selenium helpers *)

(** [WebDriverWait(driver, t).until(EC.presence_of_element_located((By.ID, i)))]. *)
Definition wait_presence (t : Z) (i : string) : M WebElement :=
  agir (APresenca t i) ;;; ret (Elem i).

(** [WebDriverWait(driver, t).until(EC.element_to_be_clickable((By.ID, i)))]. *)
Definition wait_clickable (t : Z) (i : string) : M WebElement :=
  agir (AClicavel t i) ;;; ret (Elem i).

(** [driver.find_element(By.ID, i)]. *)
Definition find_element (i : string) : M WebElement :=
  agir (AFindElement i) ;;; ret (Elem i).

Definition clear (el : WebElement) : M unit := agir (AClear el).
Definition send_keys (el : WebElement) (s : string) : M unit := agir (ASendKeys el s).
Definition click (el : WebElement) : M unit := agir (AClick el).
(** [driver.execute_script("arguments[0].blur();", el)]. *)
Definition execute_blur (el : WebElement) : M unit := agir (ABlur el).
Definition driver_get (url : string) : M unit := agir (AGet url).
Definition driver_quit : M unit := agir AQuit.

(** ** Configuration *)

(** The dictionary built by [obter_configuracoes] always has these four keys,
    so it is kept as a record. *)
Record Config := MkConfig {
  portal_url : string;
  driver_path : string;
  selectors_file : string;
  streaming_path : string
}.

(** [os.getenv] with its default, over the process environment. *)
Definition obter_configuracoes (env : gmap string string) : Config :=
  MkConfig
    (dict_get env "PORTAL_URL" "https://portal-financeiro-confidencial.com/login")
    (dict_get env "DRIVER_PATH" "msedgedriver.exe")
    (dict_get env "SELECTORS_FILE" "selectors.json")
    (dict_get env "STREAMING_OUTPUT_PATH" "./dados/streaming_saida.txt").

(** [json.load] of the file at [path], which exists and is opened as UTF-8
    text. *)
Definition json_load (path : string) : M Json :=
  fun w =>
    match arquivos w !! path with
    | Some (ArqJson j) => (Ok j, w)
    | Some (ArqTexto _) => (Err (JSONDecodeError path), w)
    | _ => (Err (UnicodeDecodeError path), w)
    end.

Definition carregar_selectors (path : string) : M (gmap string string) :=
  existe <- os_path_exists path ;;
  if negb existe then raise (FileNotFoundError ("Arquivo de seletores não encontrado: " ++ path))
  else
    data <- json_load path ;;
    match data with
    | JObjeto d => ret d
    | JOutro => raise (ValueError "Arquivo de seletores inválido. Esperado um JSON com chave/valor.")
    end.

(** ** Session *)

Definition iniciar_driver (path : string) : M WebDriver :=
  agir (AEdge path) ;;; ret (Edge path).

Definition login (driver : WebDriver) (sel : gmap string string)
    (url usuario senha : string) : M unit :=
  logging_info "Acessando portal de login..." [] ;;;
  driver_get url ;;;
  i_usuario <- item sel "campo_usuario" ;;
  campo_usuario <- wait_presence 25 i_usuario ;;
  i_senha <- item sel "campo_senha" ;;
  campo_senha <- find_element i_senha ;;
  i_entrar <- item sel "botao_entrar" ;;
  botao_entrar <- find_element i_entrar ;;
  clear campo_usuario ;;;
  send_keys campo_usuario usuario ;;;
  clear campo_senha ;;;
  send_keys campo_senha senha ;;;
  click botao_entrar ;;;
  i_menu <- item sel "menu_cadastro" ;;
  wait_presence 25 i_menu ;;;
  logging_info "Login realizado com sucesso." [].

Definition navegar_para_modulo_consulta (driver : WebDriver)
    (sel : gmap string string) : M unit :=
  logging_info "Navegando até o módulo de consulta..." [] ;;;
  i_cadastro <- item sel "menu_cadastro" ;;
  menu_cadastro <- wait_clickable 25 i_cadastro ;;
  click menu_cadastro ;;;
  i_proposta <- item sel "menu_proposta" ;;
  menu_proposta <- wait_clickable 25 i_proposta ;;
  click menu_proposta ;;;
  logging_info "Módulo de consulta acessado." [].

(** ** Input *)

(** [pd.read_excel] of the file at [path], which exists. *)
Definition pd_read_excel (path : string) : M Planilha :=
  fun w =>
    match arquivos w !! path with
    | Some (ArqExcel p) => (Ok p, w)
    | _ => (Err (ValueError "Excel file format cannot be determined"), w)
    end.

(** [len(l)]. *)
Definition len {A} (l : list A) : Z := Z.of_nat (length l).

Definition carregar_entrada (caminho_entrada : string) : M (list (gmap string PyVal)) :=
  existe <- os_path_exists caminho_entrada ;;
  if negb existe then raise (FileNotFoundError ("Arquivo de entrada não encontrado: " ++ caminho_entrada))
  else
    df <- pd_read_excel caminho_entrada ;;
    if negb (bool_decide ("CPF" ∈ colunas df)) then
      raise (ValueError "A planilha de entrada deve conter, no mínimo, a coluna 'CPF'.")
    else
      let registros := linhas df in
      logging_info "Arquivo de entrada carregado. Registros encontrados: %d"
        [AInt (len registros)] ;;;
      ret registros.

(** ** Streaming of results *)

Definition cabecalho : string := "cpf;status;mensagem" ++ nl.

Definition inicializar_streaming (path : string) : M unit :=
  os_makedirs_dirname path ;;;
  escrever path cabecalho ;;;
  logging_info "Arquivo de streaming inicializado em: %s" [AStr path].

(** The f-string [f"{cpf};{status};{mensagem}\n"]. *)
Definition linha_streaming (cpf status mensagem : string) : string :=
  cpf ++ ";" ++ status ++ ";" ++ mensagem ++ nl.

Definition append_streaming (path cpf status mensagem : string) : M unit :=
  anexar path (linha_streaming cpf status mensagem).

(** ** Extraction for one CPF *)

(** The placeholder record returned on success. *)
Definition dados_ok (cpf : string) : gmap string PyVal :=
  <["Saldo" := PFloat "1235.0"]>
    (<["ParcelasPagas" := PInt 12]>
       (<["Status" := PStr "ok"]> (<["CPF" := PStr cpf]> ∅))).

(** The record the orchestrator builds in its [except] branch. *)
Definition dados_erro (cpf : string) : gmap string PyVal :=
  <["Saldo" := PNone]>
    (<["ParcelasPagas" := PNone]>
       (<["Status" := PStr "erro"]> (<["CPF" := PStr cpf]> ∅))).

Definition extrair_dados_para_cpf (driver : WebDriver) (sel : gmap string string)
    (cpf : string) (timeout : Z) : M (gmap string PyVal) :=
  logging_info "Iniciando extração para CPF: %s" [AStr cpf] ;;;
  i_cpf <- item sel "campo_cpf" ;;
  campo_cpf <- wait_presence timeout i_cpf ;;
  clear campo_cpf ;;;
  send_keys campo_cpf cpf ;;;
  (if bool_decide (is_Some (sel !! "botao_consultar")) then
     i_botao <- item sel "botao_consultar" ;;
     botao_consultar <- find_element i_botao ;;
     click botao_consultar
   else
     execute_blur campo_cpf) ;;;
  i_grid <- item sel "grid_resultados" ;;
  wait_presence timeout i_grid ;;;
  let resultado := dados_ok cpf in
  logging_info "Extração concluída para CPF: %s" [AStr cpf] ;;;
  ret resultado.

(** ** Orchestration *)

(** [resultados.append(dados)]. *)
Definition resultados_append (dados : gmap string PyVal) : M unit :=
  fun w => (Ok tt, com_resultados (var_resultados w ++ [dados])%list w).

Definition ler_resultados : M (list (gmap string PyVal)) :=
  fun w => (Ok (var_resultados w), w).
Definition ler_driver : M (option WebDriver) :=
  fun w => (Ok (var_driver w), w).
Definition atribuir_driver (d : option WebDriver) : M unit :=
  fun w => (Ok tt, com_driver d w).
Definition atribuir_resultados (r : list (gmap string PyVal)) : M unit :=
  fun w => (Ok tt, com_resultados r w).

(** [str(row.get("CPF", "")).strip()]. *)
Definition cpf_de (row : gmap string PyVal) : string :=
  strip (py_str (dict_get row "CPF" (PStr ""))).

(** The [try]/[except] of the loop body: the record to retain, the status
    and the message for the stream log. *)
Definition extrair_ou_erro (driver : WebDriver) (sel : gmap string string)
    (cpf : string) : M (gmap string PyVal * PyVal * string) :=
  tentar
    (dados <- extrair_dados_para_cpf driver sel cpf 20 ;;
     let status := dict_get dados "Status" (PStr "ok") in
     let mensagem_streaming := "extração concluída" in
     ret (dados, status, mensagem_streaming))
    (fun exc =>
       logging_exception "Falha ao extrair dados para CPF %s: %s" [AStr cpf; AExc exc] ;;;
       let dados := dados_erro cpf in
       let status := PStr "erro" in
       let mensagem_streaming := "erro: " ++ classe exc in
       ret (dados, status, mensagem_streaming)).

(** One iteration of [for idx, row in enumerate(registros, start=1)].  The
    last argument of the progress message, the elapsed wall-clock time, is
    not modelled. *)
Definition corpo_laco (driver : WebDriver) (sel : gmap string string)
    (path : string) (total idx : Z) (row : gmap string PyVal) : M unit :=
  let cpf := cpf_de row in
  if str_vazia cpf then
    logging_warning "Registro sem CPF válido na linha %d. Ignorando." [AInt idx]
  else
    r <- extrair_ou_erro driver sel cpf ;;
    let '(dados, status, mensagem_streaming) := r in
    resultados_append dados ;;;
    append_streaming path cpf (py_str status) mensagem_streaming ;;;
    fracao <- py_truediv idx total ;;
    logging_info "Progresso: %d/%d (%.2f%%) - Tempo decorrido: %.1fs"
      [AInt idx; AInt total; AReal (fracao * 100)%Q].

(** The [for] loop, from index [idx] on. *)
Fixpoint laco (driver : WebDriver) (sel : gmap string string) (path : string)
    (total idx : Z) (registros : list (gmap string PyVal)) : M unit :=
  match registros with
  | [] => ret tt
  | row :: resto =>
      corpo_laco driver sel path total idx row ;;;
      laco driver sel path total (idx + 1) resto
  end.

(** [pd.DataFrame(resultados)]: every record the script retains has the
    same four keys, which become the columns. *)
Definition pd_DataFrame (resultados : list (gmap string PyVal)) : Planilha :=
  MkPlanilha ["CPF"; "Status"; "ParcelasPagas"; "Saldo"] resultados.

(** [df.to_excel(path, index=False)]. *)
Definition to_excel (df : Planilha) (path : string) : M unit :=
  agir (AToExcel path) ;;;
  efeito_fs (insert path (ArqExcel df)).

(** The consolidation after the loop. *)
Definition consolidar (caminho_saida : string) : M unit :=
  resultados <- ler_resultados ;;
  match resultados with
  | _ :: _ =>
      os_makedirs_dirname caminho_saida ;;;
      let df_out := pd_DataFrame resultados in
      to_excel df_out caminho_saida ;;;
      logging_info "Arquivo de saída gerado em: %s" [AStr caminho_saida]
  | [] =>
      logging_warning "Nenhum resultado foi gerado. Verifique entrada e logs." []
  end.

(** The body of the [try] block. *)
Definition bloco_try (usuario senha caminho_entrada caminho_saida : string)
    (cfg : Config) (selectors : gmap string string) : M unit :=
  driver <- iniciar_driver (driver_path cfg) ;;
  atribuir_driver (Some driver) ;;;
  login driver selectors (portal_url cfg) usuario senha ;;;
  navegar_para_modulo_consulta driver selectors ;;;
  registros <- carregar_entrada caminho_entrada ;;
  let total := len registros in
  laco driver selectors (streaming_path cfg) total 1 registros ;;;
  consolidar caminho_saida.

(** The [finally] block. *)
Definition bloco_finally : M unit :=
  driver <- ler_driver ;;
  match driver with
  | Some _ => driver_quit ;;; logging_info "Driver finalizado." []
  | None => ret tt
  end.

Definition executar_extracao (usuario senha caminho_entrada caminho_saida : string)
    (cfg : Config) : M unit :=
  selectors <- carregar_selectors (selectors_file cfg) ;;
  inicializar_streaming (streaming_path cfg) ;;;
  atribuir_driver None ;;;
  atribuir_resultados [] ;;;
  try_finally
    (bloco_try usuario senha caminho_entrada caminho_saida cfg selectors)
    bloco_finally.

(** ** Entry point *)

Record Args := MkArgs {
  arg_input : string;
  arg_output : string;
  arg_user : string;
  arg_password : string;
  arg_log : string
}.

(** [main], returning the exit status of the process: [sys.exit(1)] in the
    handler, 0 when [main] returns.  Reading the environment, parsing the
    command line and setting up the logging sink are left out. *)
Definition main (env : gmap string string) (a : Args) : M Z :=
  let cfg := obter_configuracoes env in
  logging_info "Iniciando processo de extração." [] ;;;
  logging_info "Entrada: %s" [AStr (arg_input a)] ;;;
  logging_info "Saída: %s" [AStr (arg_output a)] ;;;
  logging_info "Streaming: %s" [AStr (streaming_path cfg)] ;;;
  tentar
    (executar_extracao (arg_user a) (arg_password a) (arg_input a) (arg_output a) cfg ;;;
     logging_info "Processo concluído com sucesso." [] ;;;
     ret 0)
    (fun exc =>
       logging_exception "Falha geral na extração: %s" [AExc exc] ;;;
       ret 1).

(** ** Observations on the world *)

Definition fmt_progresso : string :=
  "Progresso: %d/%d (%.2f%%) - Tempo decorrido: %.1fs".

(** The index and the total of a progress record. *)
Definition progresso_de (l : Log) : option (Z * Z) :=
  if String.eqb (formato l) fmt_progresso then
    match args l with
    | AInt i :: AInt t :: _ => Some (i, t)
    | _ => None
    end
  else None.

Definition progressos (ls : list Log) : list (Z * Z) := omap progresso_de ls.

(** How many times [driver.quit()] was called. *)
Definition e_quit (x : Acao * option Excecao) : bool :=
  match x.1 with
  | AQuit => true
  | _ => false
  end.

Definition chamadas_quit (h : Historia) : nat := length (filter (fun x => e_quit x = true) h).

(** The launches of the browser that returned a driver. *)
Definition e_inicio_ok (x : Acao * option Excecao) : bool :=
  match x with
  | (AEdge _, None) => true
  | _ => false
  end.

Definition sessoes_iniciadas (h : Historia) : nat :=
  length (filter (fun x => e_inicio_ok x = true) h).

(** The rows whose CPF is not empty after trimming, and their trimmed CPFs. *)
Definition cpfs_validos (registros : list (gmap string PyVal)) : list string :=
  filter (fun c => str_vazia c = false) (map cpf_de registros).

(** The text of the file at [path], when it is a text file. *)
Definition texto_em (w : Estado) (path : string) : option string :=
  match arquivos w !! path with
  | Some (ArqTexto c) => Some c
  | _ => None
  end.

(** ** Outcomes of one record *)

(** What the [try]/[except] of the loop body yields for a CPF: [None] when
    the extraction returned, [Some e] when it raised [e]. *)
Definition dados_de (cpf : string) (o : option Excecao) : gmap string PyVal :=
  match o with
  | None => dados_ok cpf
  | Some _ => dados_erro cpf
  end.

Definition status_de (o : option Excecao) : PyVal :=
  match o with
  | None => PStr "ok"
  | Some _ => PStr "erro"
  end.

Definition mensagem_de (o : option Excecao) : string :=
  match o with
  | None => "extração concluída"
  | Some e => "erro: " ++ classe e
  end.

Definition linha_de (x : string * option Excecao) : string :=
  linha_streaming x.1 (py_str (status_de x.2)) (mensagem_de x.2).

Definition registro_de (x : string * option Excecao) : gmap string PyVal :=
  dados_de x.1 x.2.

(** The file system after appending the lines [ls] to [path], one
    [append_streaming] each. *)
Definition fs_anexar_todas (path : string) (ls : list string)
    (fs : gmap string Arquivo) : gmap string Arquivo :=
  foldl (fun f l => fs_anexar path l f) fs ls.

(** The indices [enumerate] gives to the rows that are not skipped, counting
    from [idx]. *)
Fixpoint indices_validos (idx : Z) (registros : list (gmap string PyVal)) : list Z :=
  match registros with
  | [] => []
  | row :: resto =>
      if str_vazia (cpf_de row) then indices_validos (idx + 1) resto
      else idx :: indices_validos (idx + 1) resto
  end.

(** ** Relations a computation may keep between the worlds before and after *)

Definition mantem (R : Estado -> Estado -> Prop) {A} (c : M A) : Prop :=
  forall w r w', c w = (r, w') -> R w w'.

(** Actions other than launching and quitting the browser. *)
Definition acao_neutra (x : Acao * option Excecao) : bool :=
  match x.1 with
  | AEdge _ | AQuit => false
  | _ => true
  end.

(** Files and retained results are untouched. *)
Definition R_dados (w w' : Estado) : Prop :=
  arquivos w' = arquivos w /\ var_resultados w' = var_resultados w.

(** The history grows by neutral actions only. *)
Definition R_neutra (w w' : Estado) : Prop :=
  exists h, historia w' = (historia w ++ h)%list /\ forallb acao_neutra h = true.

(** The local [driver] keeps its value. *)
Definition R_driver (w w' : Estado) : Prop :=
  var_driver w' = var_driver w.

(** The log grows, by records that are no progress reports. *)
Definition R_registro (w w' : Estado) : Prop :=
  exists l, registro w' = (registro w ++ l)%list /\ progressos l = [].

(** The oracle itself is never replaced. *)
Definition R_oraculo (w w' : Estado) : Prop :=
  oraculo w' = oraculo w.

(** [o] is the outcome of the extraction for [cpf] started in world [w]. *)
Definition desfecho_extracao (d : WebDriver) (sel : gmap string string)
    (cpf : string) (w : Estado) (o : option Excecao) : Prop :=
  match o with
  | None => exists w1, extrair_dados_para_cpf d sel cpf 20 w = (Ok (dados_ok cpf), w1)
  | Some e => exists w1, extrair_dados_para_cpf d sel cpf 20 w = (Err e, w1)
  end.


(** The selector keys read while the session is established: by [login] and
    by [navegar_para_modulo_consulta]. *)
Definition chaves_de_sessao : list string :=
  ["campo_usuario"; "campo_senha"; "botao_entrar"; "menu_cadastro"; "menu_proposta"].

(** ** Concrete worlds *)

Module Exemplos.

Definition sel_completo : gmap string string :=
  list_to_map
    [("campo_usuario", "usuario"); ("campo_senha", "senha");
     ("botao_entrar", "entrar"); ("menu_cadastro", "cadastro");
     ("menu_proposta", "proposta"); ("campo_cpf", "cpf");
     ("grid_resultados", "grid")].

(** The same map without the key of the results grid. *)
Definition sel_sem_grid : gmap string string := delete "grid_resultados" sel_completo.

Definition linha_cpf (c : string) : gmap string PyVal := <["CPF" := PStr c]> ∅.

Definition planilha (cpfs : list string) : Planilha :=
  MkPlanilha ["CPF"] (map linha_cpf cpfs).

Definition cfg : Config := obter_configuracoes ∅.

Definition disco (sel : gmap string string) (cpfs : list string)
    : gmap string Arquivo :=
  <["selectors.json" := ArqJson (JObjeto sel)]>
    (<["dados/entrada.xlsx" := ArqExcel (planilha cpfs)]> ∅).

(** A portal on which every action succeeds. *)
Definition portal_ok : Historia -> Acao -> option Excecao := fun _ _ => None.

Definition TimeoutException : Excecao := Exc "TimeoutException" "".

(** A portal on which the results grid never shows up. *)
Definition portal_sem_grid : Historia -> Acao -> option Excecao :=
  fun _ a =>
    match a with
    | APresenca _ i => if String.eqb i "grid" then Some TimeoutException else None
    | _ => None
    end.

(** A portal on which the post-login marker never shows up. *)
Definition portal_sem_login : Historia -> Acao -> option Excecao :=
  fun _ a =>
    match a with
    | APresenca _ i => if String.eqb i "cadastro" then Some TimeoutException else None
    | _ => None
    end.

(** A disk on which the stream log cannot be opened for appending. *)
Definition portal_sem_anexo : Historia -> Acao -> option Excecao :=
  fun _ a =>
    match a with
    | AOpen _ m => if String.eqb m "a" then Some (Exc "PermissionError" "") else None
    | _ => None
    end.

(** Whether a path has a slash, hence a directory part. *)
Definition tem_barra (p : string) : bool :=
  existsb (fun a => Ascii.eqb a "/"%char) (list_ascii_of_string p).

(** A file system on which [os.makedirs] of an empty directory name raises:
    the parent of a path without directory part cannot be created. *)
Definition portal_sem_diretorio : Historia -> Acao -> option Excecao :=
  fun _ a =>
    match a with
    | AMakedirs p => if tem_barra p then None else Some (FileNotFoundError "")
    | _ => None
    end.

(** A machine on which the browser cannot be launched. *)
Definition portal_sem_driver : Historia -> Acao -> option Excecao :=
  fun _ a =>
    match a with
    | AEdge _ => Some (Exc "WebDriverException" "")
    | _ => None
    end.

Definition mundo (p : Historia -> Acao -> option Excecao)
    (sel : gmap string string) (cpfs : list string) : Estado :=
  MkEstado p [] (disco sel cpfs) [] None [].

Definition driver : WebDriver := Edge "msedgedriver.exe".

Definition executar (p : Historia -> Acao -> option Excecao)
    (sel : gmap string string) (cpfs : list string) : Resultado unit * Estado :=
  executar_extracao "usuario" "segredo" "dados/entrada.xlsx" "saida/consolidado.xlsx"
    cfg (mundo p sel cpfs).

Definition args : Args :=
  MkArgs "dados/entrada.xlsx" "saida/consolidado.xlsx" "usuario" "segredo"
    "./logs/extracao_portal.log".

End Exemplos.

(** ** Runs of [executar_extracao] *)

(** The world in which the [try] block starts, [w] being the world left by
    [inicializar_streaming]: [driver] is [None] and [resultados] is empty. *)
Definition mundo_do_try (w : Estado) : Estado :=
  com_resultados [] (com_driver None w).

(** The last call recorded in the history is [a], and it raised [e]. *)
Definition falha_de (a : Acao) (e : Excecao) (w : Estado) : Prop :=
  exists h, historia w = (h ++ [(a, Some e)])%list.

(** The oracle never refuses to open [path] for appending. *)
Definition anexos_livres (path : string) (w : Estado) : Prop :=
  forall h, oraculo w h (AOpen path "a") = None.

(** An oracle that refuses no call. *)
Definition oraculo_livre (w : Estado) : Prop :=
  forall h a, oraculo w h a = None.

(** When the oracle refuses nothing, the computation leaves such an oracle
    behind and raises only exceptions admitted by [E]. *)
Definition termina (E : Excecao -> Prop) {A} (c : M A) : Prop :=
  forall w, oraculo_livre w ->
    exists r w', c w = (r, w') /\ oraculo_livre w' /\
      match r with
      | Ok _ => True
      | Err e => E e
      end.

(** The [KeyError] of a key of the session that [sel] lacks. *)
Definition erro_de_chave (sel : gmap string string) (e : Excecao) : Prop :=
  exists k, k ∈ chaves_de_sessao /\ sel !! k = None /\ e = KeyError k.

(** The file system after the consolidation of the retained records [rs]:
    the workbook is written only when there is a record. *)
Definition fs_consolidar (saida : string) (rs : list (gmap string PyVal))
    (fs : gmap string Arquivo) : gmap string Arquivo :=
  match rs with
  | [] => fs
  | _ :: _ => <[saida := ArqExcel (pd_DataFrame rs)]> fs
  end.

Definition aviso_sem_resultados : Log :=
  MkLog WARNING "Nenhum resultado foi gerado. Verifique entrada e logs." [].



(** ** Further observations *)

(** The calls of a list, all of which returned. *)
Definition todas_ok (l : list Acao) : Historia := map (fun a => (a, None)) l.

(** The Selenium calls of a login that returns. *)
Definition chamadas_login (url usuario senha i_usuario i_senha i_entrar i_menu : string)
    : list Acao :=
  [AGet url; APresenca 25 i_usuario; AFindElement i_senha; AFindElement i_entrar;
   AClear (Elem i_usuario); ASendKeys (Elem i_usuario) usuario;
   AClear (Elem i_senha); ASendKeys (Elem i_senha) senha;
   AClick (Elem i_entrar); APresenca 25 i_menu].

(** The Selenium calls of a navigation that returns. *)
Definition chamadas_navegacao (i_cadastro i_proposta : string) : list Acao :=
  [AClicavel 25 i_cadastro; AClick (Elem i_cadastro);
   AClicavel 25 i_proposta; AClick (Elem i_proposta)].

(** The calls that trigger the query: a click on the button when the map has
    one, the loss of focus of the CPF field otherwise. *)
Definition chamadas_disparo (sel : gmap string string) (i_cpf : string) : list Acao :=
  match sel !! "botao_consultar" with
  | Some i_botao => [AFindElement i_botao; AClick (Elem i_botao)]
  | None => [ABlur (Elem i_cpf)]
  end.

(** The Selenium calls of an extraction that returns. *)
Definition chamadas_extracao (sel : gmap string string) (cpf : string) (timeout : Z)
    (i_cpf i_grid : string) : list Acao :=
  ([APresenca timeout i_cpf; AClear (Elem i_cpf); ASendKeys (Elem i_cpf) cpf]
     ++ chamadas_disparo sel i_cpf ++ [APresenca timeout i_grid])%list.

(** The first key of [ks], in order, that the map lacks. *)
Fixpoint primeira_ausente (d : gmap string string) (ks : list string) : option string :=
  match ks with
  | [] => None
  | k :: resto =>
      match d !! k with
      | None => Some k
      | Some _ => primeira_ausente d resto
      end
  end.

(** The keys in the order in which each function first reads them. *)
Definition chaves_login : list string :=
  ["campo_usuario"; "campo_senha"; "botao_entrar"; "menu_cadastro"].
Definition chaves_navegacao : list string := ["menu_cadastro"; "menu_proposta"].
Definition chaves_extracao : list string := ["campo_cpf"; "grid_resultados"].

(** A string of white space only. *)
Fixpoint so_espacos (s : string) : bool :=
  match s with
  | EmptyString => true
  | String a r => is_space a && so_espacos r
  end.



Definition fmt_ignorado : string := "Registro sem CPF válido na linha %d. Ignorando.".

(** The row index of a warning about a skipped row. *)
Definition ignorado_de (l : Log) : option Z :=
  if String.eqb (formato l) fmt_ignorado then
    match nivel l, args l with
    | WARNING, [AInt i] => Some i
    | _, _ => None
    end
  else None.

Definition ignorados (ls : list Log) : list Z := omap ignorado_de ls.

(** The indices [enumerate] gives to the rows that are skipped, counting
    from [idx]. *)
Fixpoint indices_ignorados (idx : Z) (registros : list (gmap string PyVal)) : list Z :=
  match registros with
  | [] => []
  | row :: resto =>
      if str_vazia (cpf_de row) then idx :: indices_ignorados (idx + 1) resto
      else indices_ignorados (idx + 1) resto
  end.

(** The log grows, by records that are no warnings about skipped rows. *)
Definition R_avisos (w w' : Estado) : Prop :=
  exists l, registro w' = (registro w ++ l)%list /\ ignorados l = [].

(** The text file at [path] grows only at its end. *)
Definition R_cresce (path : string) (w w' : Estado) : Prop :=
  forall c, texto_em w path = Some c -> exists s, texto_em w' path = Some (c ++ s).

(** No file is removed, and the files at other paths than [path] and [saida]
    are untouched. *)
Definition R_fora (path saida : string) (w w' : Estado) : Prop :=
  (forall q, is_Some (arquivos w !! q) -> is_Some (arquivos w' !! q)) /\
  (forall q, q <> path -> q <> saida -> arquivos w' !! q = arquivos w !! q).

(** The environment variables [obter_configuracoes] reads. *)
Definition variaveis_lidas : list string :=
  ["PORTAL_URL"; "DRIVER_PATH"; "SELECTORS_FILE"; "STREAMING_OUTPUT_PATH"].

(** An environment that sets the four variables to the fields of [c]. *)
Definition ambiente_de (c : Config) : gmap string string :=
  <["PORTAL_URL" := portal_url c]>
    (<["DRIVER_PATH" := driver_path c]>
       (<["SELECTORS_FILE" := selectors_file c]>
          (<["STREAMING_OUTPUT_PATH" := streaming_path c]> ∅))).



(** A string without the separator of the stream log. *)
Definition sem_separador (s : string) : bool :=
  forallb (fun a => negb (Ascii.eqb a ";"%char)) (list_ascii_of_string s).




(** * Reasoning about computations *)

Lemma bind_eq {A B} (c : M A) (k : A -> M B) w :
  bind c k w = match c w with
               | (Ok a, w1) => k a w1
               | (Err e, w1) => (Err e, w1)
               end.
Proof. reflexivity. Qed.

Lemma bind_Ok {A B} (c : M A) (k : A -> M B) w a w1 :
  c w = (Ok a, w1) -> bind c k w = k a w1.
Proof. intros H. unfold bind. by rewrite H. Qed.

Lemma bind_Err {A B} (c : M A) (k : A -> M B) w e w1 :
  c w = (Err e, w1) -> bind c k w = (Err e, w1).
Proof. intros H. unfold bind. by rewrite H. Qed.

Lemma bind_inv_Ok {A B} (c : M A) (k : A -> M B) w b w2 :
  bind c k w = (Ok b, w2) ->
  exists a w1, c w = (Ok a, w1) /\ k a w1 = (Ok b, w2).
Proof.
  unfold bind. destruct (c w) as [[a|e] w1]; intros H; [eauto | discriminate].
Qed.

(** Relations between the world before and after a computation that every
    step of the computation respects. *)
Section Mantem.
Context (R : Estado -> Estado -> Prop) `{!PreOrder R}.

Lemma mantem_ret {A} (a : A) : mantem R (ret a).
Proof. intros w r w' [= <- <-]. reflexivity. Qed.

Lemma mantem_raise {A} e : mantem R (@raise A e).
Proof. intros w r w' [= <- <-]. reflexivity. Qed.

Lemma mantem_bind {A B} (c : M A) (k : A -> M B) :
  mantem R c -> (forall a, mantem R (k a)) -> mantem R (bind c k).
Proof.
  intros Hc Hk w r w'. unfold bind.
  destruct (c w) as [[a|e] w1] eqn:E; intros H.
  - transitivity w1; [by eapply Hc | by eapply Hk].
  - injection H as <- <-. by eapply Hc.
Qed.

Lemma mantem_tentar {A} (c : M A) (h : Excecao -> M A) :
  mantem R c -> (forall e, mantem R (h e)) -> mantem R (tentar c h).
Proof.
  intros Hc Hh w r w'. unfold tentar.
  destruct (c w) as [[a|e] w1] eqn:E; intros H.
  - injection H as <- <-. by eapply Hc.
  - transitivity w1; [by eapply Hc | by eapply Hh].
Qed.

Lemma mantem_try_finally {A} (c : M A) (f : M unit) :
  mantem R c -> mantem R f -> mantem R (try_finally c f).
Proof.
  intros Hc Hf w r w'. unfold try_finally.
  destruct (c w) as [r1 w1] eqn:E.
  destruct (f w1) as [[[]|e] w2] eqn:F; intros [= <- <-];
    (transitivity w1; [by eapply Hc | by eapply Hf]).
Qed.

Lemma mantem_item (d : gmap string string) k : mantem R (item d k).
Proof. unfold item. destruct (d !! k); [apply mantem_ret | apply mantem_raise]. Qed.

Lemma mantem_os_path_exists p : mantem R (os_path_exists p).
Proof. intros w r w' [= <- <-]. reflexivity. Qed.

Lemma mantem_json_load p : mantem R (json_load p).
Proof.
  intros w r w'. unfold json_load.
  repeat case_match; intros [= <- <-]; reflexivity.
Qed.

Lemma mantem_pd_read_excel p : mantem R (pd_read_excel p).
Proof.
  intros w r w'. unfold pd_read_excel.
  repeat case_match; intros [= <- <-]; reflexivity.
Qed.

Lemma mantem_py_truediv x y : mantem R (py_truediv x y).
Proof. unfold py_truediv. case_match; [apply mantem_raise | apply mantem_ret]. Qed.

Lemma mantem_ler_resultados : mantem R ler_resultados.
Proof. intros w r w' [= <- <-]. reflexivity. Qed.

Lemma mantem_ler_driver : mantem R ler_driver.
Proof. intros w r w' [= <- <-]. reflexivity. Qed.
End Mantem.

(** ** The relations are preorders *)

Lemma progressos_app l1 l2 : progressos (l1 ++ l2) = (progressos l1 ++ progressos l2)%list.
Proof. apply omap_app. Qed.

#[global] Instance R_dados_po : PreOrder R_dados.
Proof.
  split.
  - by intros w.
  - intros a b c [H1 H2] [H3 H4]. split; congruence.
Qed.

#[global] Instance R_neutra_po : PreOrder R_neutra.
Proof.
  split.
  - intros w. exists []. by rewrite app_nil_r.
  - intros a b c (h1 & E1 & F1) (h2 & E2 & F2). exists (h1 ++ h2)%list.
    rewrite E2, E1, <- app_assoc, forallb_app, F1, F2. done.
Qed.

#[global] Instance R_driver_po : PreOrder R_driver.
Proof.
  split; [by intros w | intros a b c H1 H2; unfold R_driver in *; congruence].
Qed.

#[global] Instance R_registro_po : PreOrder R_registro.
Proof.
  split.
  - intros w. exists []. by rewrite app_nil_r.
  - intros a b c (l1 & E1 & F1) (l2 & E2 & F2). exists (l1 ++ l2)%list.
    rewrite E2, E1, <- app_assoc, progressos_app, F1, F2. done.
Qed.

#[global] Instance R_oraculo_po : PreOrder R_oraculo.
Proof.
  split; [by intros w | intros a b c H1 H2; unfold R_oraculo in *; congruence].
Qed.

(** ** What each primitive keeps *)

Ltac folha :=
  intros w r w';
  cbv [agir logging logging_info logging_warning logging_exception efeito_fs
       resultados_append atribuir_driver atribuir_resultados];
  intros H; repeat case_match; simplify_eq; simpl.

Lemma agir_dados a : mantem R_dados (agir a).
Proof. folha; by split. Qed.
Lemma agir_driver a : mantem R_driver (agir a).
Proof. folha; done. Qed.
Lemma agir_registro a : mantem R_registro (agir a).
Proof. folha; exists []; by rewrite app_nil_r. Qed.
Lemma agir_oraculo a : mantem R_oraculo (agir a).
Proof. folha; done. Qed.
Lemma agir_neutra a : acao_neutra (a, None) = true -> mantem R_neutra (agir a).
Proof.
  intros Ha w r w' H. unfold agir in H.
  exists [(a, oraculo w (historia w) a)]. split.
  - destruct (oraculo w (historia w) a); by simplify_eq.
  - simpl. unfold acao_neutra in *. simpl in *. by rewrite Ha.
Qed.

Lemma logging_dados n f a : mantem R_dados (logging n f a).
Proof. folha; by split. Qed.
Lemma logging_driver n f a : mantem R_driver (logging n f a).
Proof. folha; done. Qed.
Lemma logging_neutra n f a : mantem R_neutra (logging n f a).
Proof. folha; exists []; by rewrite app_nil_r. Qed.
Lemma logging_oraculo n f a : mantem R_oraculo (logging n f a).
Proof. folha; done. Qed.
Lemma logging_registro n f a :
  progresso_de (MkLog n f a) = None -> mantem R_registro (logging n f a).
Proof.
  intros Hp w r w' [= <- <-]. exists [MkLog n f a]. split; [done |].
  unfold progressos. simpl. by rewrite Hp.
Qed.

Lemma atribuir_driver_dados d : mantem R_dados (atribuir_driver d).
Proof. folha; by split. Qed.
Lemma atribuir_driver_neutra d : mantem R_neutra (atribuir_driver d).
Proof. folha; exists []; by rewrite app_nil_r. Qed.
Lemma atribuir_driver_registro d : mantem R_registro (atribuir_driver d).
Proof. folha; exists []; by rewrite app_nil_r. Qed.
Lemma atribuir_driver_oraculo d : mantem R_oraculo (atribuir_driver d).
Proof. folha; done. Qed.

Lemma atribuir_resultados_neutra l : mantem R_neutra (atribuir_resultados l).
Proof. folha; exists []; by rewrite app_nil_r. Qed.
Lemma atribuir_resultados_driver l : mantem R_driver (atribuir_resultados l).
Proof. folha; done. Qed.
Lemma atribuir_resultados_registro l : mantem R_registro (atribuir_resultados l).
Proof. folha; exists []; by rewrite app_nil_r. Qed.

Lemma resultados_append_neutra d : mantem R_neutra (resultados_append d).
Proof. folha; exists []; by rewrite app_nil_r. Qed.
Lemma resultados_append_driver d : mantem R_driver (resultados_append d).
Proof. folha; done. Qed.
Lemma resultados_append_registro d : mantem R_registro (resultados_append d).
Proof. folha; exists []; by rewrite app_nil_r. Qed.
Lemma resultados_append_oraculo d : mantem R_oraculo (resultados_append d).
Proof. folha; done. Qed.

Lemma efeito_fs_neutra g : mantem R_neutra (efeito_fs g).
Proof. folha; exists []; by rewrite app_nil_r. Qed.
Lemma efeito_fs_driver g : mantem R_driver (efeito_fs g).
Proof. folha; done. Qed.
Lemma efeito_fs_registro g : mantem R_registro (efeito_fs g).
Proof. folha; exists []; by rewrite app_nil_r. Qed.
Lemma efeito_fs_oraculo g : mantem R_oraculo (efeito_fs g).
Proof. folha; done. Qed.
Lemma atribuir_resultados_oraculo l : mantem R_oraculo (atribuir_resultados l).
Proof. folha; done. Qed.

Create HintDb mantem.
#[global] Hint Resolve
  agir_dados agir_driver agir_registro agir_oraculo
  logging_dados logging_driver logging_neutra logging_oraculo
  atribuir_driver_dados atribuir_driver_neutra atribuir_driver_registro
  atribuir_driver_oraculo
  atribuir_resultados_neutra atribuir_resultados_driver atribuir_resultados_registro
  atribuir_resultados_oraculo
  resultados_append_neutra resultados_append_driver resultados_append_registro
  resultados_append_oraculo
  efeito_fs_neutra efeito_fs_driver efeito_fs_registro efeito_fs_oraculo : mantem.

(** Decompose a computation along its binds and settle the leaves. *)
Ltac mantem_passo :=
  lazymatch goal with
  | |- mantem ?R (bind _ _) => apply (mantem_bind R); [| intros ?]
  | |- mantem ?R (tentar _ _) => apply (mantem_tentar R); [| intros ?]
  | |- mantem ?R (try_finally _ _) => apply (mantem_try_finally R)
  | |- mantem ?R (ret _) => apply (mantem_ret R)
  | |- mantem ?R (raise _) => apply (mantem_raise R)
  | |- mantem ?R (item _ _) => apply (mantem_item R)
  | |- mantem ?R (os_path_exists _) => apply (mantem_os_path_exists R)
  | |- mantem ?R (json_load _) => apply (mantem_json_load R)
  | |- mantem ?R (pd_read_excel _) => apply (mantem_pd_read_excel R)
  | |- mantem ?R (py_truediv _ _) => apply (mantem_py_truediv R)
  | |- mantem ?R ler_resultados => apply (mantem_ler_resultados R)
  | |- mantem ?R ler_driver => apply (mantem_ler_driver R)
  | |- mantem _ (escrever _ _) => unfold escrever
  | |- mantem _ (anexar _ _) => unfold anexar
  | |- mantem _ (to_excel _ _) => unfold to_excel
  | |- mantem _ (os_makedirs_dirname _) => unfold os_makedirs_dirname
  | |- mantem R_neutra (agir _) => apply agir_neutra; reflexivity
  | |- mantem R_registro (logging _ _ _) => apply logging_registro; reflexivity
  | |- mantem _ (if _ then _ else _) => case_match
  | |- mantem _ (match _ with _ => _ end) => case_match
  | |- mantem _ (let '(_, _) := ?r in _) => destruct r
  | |- _ => solve [eauto with mantem]
  end.

Section Molduras.
Context (R : Estado -> Estado -> Prop) `{!PreOrder R}.
Hypothesis R_agir : forall a, acao_neutra (a, None) = true -> mantem R (agir a).
Hypothesis R_logging :
  forall n f a, progresso_de (MkLog n f a) = None -> mantem R (logging n f a).

Ltac base :=
  cbv [wait_presence wait_clickable find_element clear send_keys click
       execute_blur driver_get logging_info logging_warning logging_exception];
  repeat first
    [ apply R_agir; reflexivity
    | apply R_logging; reflexivity
    | mantem_passo ].

Lemma login_mantem d sel url u s : mantem R (login d sel url u s).
Proof. unfold login. base. Qed.

Lemma navegar_mantem d sel : mantem R (navegar_para_modulo_consulta d sel).
Proof. unfold navegar_para_modulo_consulta. base. Qed.

Lemma carregar_entrada_mantem p : mantem R (carregar_entrada p).
Proof. unfold carregar_entrada. base. Qed.

Lemma carregar_selectors_mantem p : mantem R (carregar_selectors p).
Proof. unfold carregar_selectors. base. Qed.

Lemma extrair_dados_mantem d sel cpf t : mantem R (extrair_dados_para_cpf d sel cpf t).
Proof. unfold extrair_dados_para_cpf. base. Qed.

Lemma extrair_ou_erro_mantem d sel cpf : mantem R (extrair_ou_erro d sel cpf).
Proof.
  unfold extrair_ou_erro. apply (mantem_tentar R).
  - apply (mantem_bind R); [apply extrair_dados_mantem | intros; apply (mantem_ret R)].
  - intros e. base.
Qed.
End Molduras.

(** ** One record *)

Ltac inv_ok H :=
  repeat (apply bind_inv_Ok in H as (? & ? & ? & H)).

Lemma extrair_dados_Ok d sel cpf t w r w' :
  extrair_dados_para_cpf d sel cpf t w = (Ok r, w') -> r = dados_ok cpf.
Proof.
  unfold extrair_dados_para_cpf. intros H. inv_ok H.
  by injection H as <- _.
Qed.

Lemma extrair_ou_erro_spec d sel cpf w :
  exists o w',
    extrair_ou_erro d sel cpf w
      = (Ok (dados_de cpf o, status_de o, mensagem_de o), w') /\
    desfecho_extracao d sel cpf w o.
Proof.
  unfold extrair_ou_erro, tentar. rewrite bind_eq.
  destruct (extrair_dados_para_cpf d sel cpf 20 w) as [[r|e] w1] eqn:E.
  - pose proof (extrair_dados_Ok _ _ _ _ _ _ _ E) as ->.
    exists None, w1. split; [reflexivity | by exists w1].
  - exists (Some e). eexists. split; [reflexivity | by exists w1].
Qed.

Lemma corpo_laco_vazio d sel path total idx row w :
  str_vazia (cpf_de row) = true ->
  corpo_laco d sel path total idx row w
    = logging_warning "Registro sem CPF válido na linha %d. Ignorando." [AInt idx] w.
Proof. intros H. unfold corpo_laco. by rewrite H. Qed.

Lemma anexos_livres_R path w w' :
  R_oraculo w w' -> anexos_livres path w -> anexos_livres path w'.
Proof. unfold R_oraculo, anexos_livres. intros -> H. exact H. Qed.

(** The iteration for a row that is not skipped: the record is retained; the
    iteration returns with the line appended and the progress logged, unless
    opening the stream log raises. *)
Lemma corpo_laco_valido d sel path total idx row w :
  str_vazia (cpf_de row) = false -> total <> 0 ->
  exists o r w',
    corpo_laco d sel path total idx row w = (r, w') /\
    desfecho_extracao d sel (cpf_de row) w o /\
    var_resultados w' = (var_resultados w ++ [dados_de (cpf_de row) o])%list /\
    R_neutra w w' /\ R_driver w w' /\ R_oraculo w w' /\
    match r with
    | Ok _ =>
        arquivos w' = fs_anexar path (linha_de (cpf_de row, o)) (arquivos w) /\
        progressos (registro w') = (progressos (registro w) ++ [(idx, total)])%list
    | Err e =>
        falha_de (AOpen path "a") e w' /\
        arquivos w' = arquivos w /\
        progressos (registro w') = progressos (registro w)
    end /\
    (anexos_livres path w -> exists u, r = Ok u).
Proof.
  intros Hv Ht. unfold corpo_laco. rewrite Hv.
  destruct (extrair_ou_erro_spec d sel (cpf_de row) w) as (o & w1 & E & Ho).
  pose proof (extrair_ou_erro_mantem R_dados (fun a _ => agir_dados a)
                (fun n f a _ => logging_dados n f a) _ _ _ _ _ _ E) as [Hfs Hres].
  pose proof (extrair_ou_erro_mantem R_registro (fun a _ => agir_registro a)
                logging_registro _ _ _ _ _ _ E) as (l & Hl & Hp).
  pose proof (extrair_ou_erro_mantem R_neutra agir_neutra
                (fun n f a _ => logging_neutra n f a) _ _ _ _ _ _ E) as (h & Hh & Hf).
  pose proof (extrair_ou_erro_mantem R_driver (fun a _ => agir_driver a)
                (fun n f a _ => logging_driver n f a) _ _ _ _ _ _ E) as Hd.
  pose proof (extrair_ou_erro_mantem R_oraculo (fun a _ => agir_oraculo a)
                (fun n f a _ => logging_oraculo n f a) _ _ _ _ _ _ E) as Hpo.
  rewrite (bind_Ok _ _ _ _ _ E).
  cbv [bind resultados_append append_streaming anexar agir efeito_fs py_truediv
       logging_info logging]. simpl.
  destruct (oraculo w1 (historia w1) (AOpen path "a")) as [e|] eqn:Ha.
  - exists o, (Err e). eexists. split; [reflexivity |]. simpl.
    split; [done |]. split; [by rewrite Hres |].
    split.
    { exists (h ++ [(AOpen path "a", Some e)])%list.
      by rewrite Hh, <- app_assoc, forallb_app, Hf. }
    split; [done |]. split; [done |].
    split.
    { split; [by eexists |]. split; [done |].
      rewrite Hl, progressos_app, Hp. by rewrite app_nil_r. }
    intros Hlivre. exfalso. unfold anexos_livres in Hlivre.
    unfold R_oraculo in Hpo. rewrite Hpo, Hlivre in Ha. discriminate.
  - destruct (Z.eqb_spec total 0) as [|_]; [done |]. cbv [ret].
    exists o, (Ok tt). eexists. split; [reflexivity |]. simpl.
    split; [done |]. split; [by rewrite Hres |].
    split.
    { exists (h ++ [(AOpen path "a", None)])%list.
      by rewrite Hh, <- app_assoc, forallb_app, Hf. }
    split; [done |]. split; [done |].
    split; [| by eexists].
    split; [by rewrite Hfs |].
    rewrite Hl, !progressos_app, Hp. simpl. by rewrite app_nil_r.
Qed.

(** ** The loop *)

Lemma cpfs_validos_vazio row resto :
  str_vazia (cpf_de row) = true -> cpfs_validos (row :: resto) = cpfs_validos resto.
Proof.
  intros H. unfold cpfs_validos. simpl. apply filter_cons_False. by rewrite H.
Qed.

Lemma cpfs_validos_valido row resto :
  str_vazia (cpf_de row) = false ->
  cpfs_validos (row :: resto) = cpf_de row :: cpfs_validos resto.
Proof.
  intros H. unfold cpfs_validos. simpl. by apply filter_cons_True.
Qed.

Lemma falha_de_historia a e w w' :
  historia w' = historia w -> falha_de a e w -> falha_de a e w'.
Proof. unfold falha_de. by intros ->. Qed.

(** The loop returns, with one record retained, one line appended and one
    progress report for each row that is not skipped, unless opening the
    stream log raises; it then stops with that exception. *)
Lemma laco_spec d sel path total registros : forall idx w,
  total <> 0 ->
  exists r w',
    laco d sel path total idx registros w = (r, w') /\
    R_neutra w w' /\ R_driver w w' /\ R_oraculo w w' /\
    match r with
    | Ok _ =>
        exists outs,
          map fst outs = cpfs_validos registros /\
          var_resultados w' = (var_resultados w ++ map registro_de outs)%list /\
          arquivos w' = fs_anexar_todas path (map linha_de outs) (arquivos w) /\
          progressos (registro w')
            = (progressos (registro w)
                 ++ map (fun i => (i, total)) (indices_validos idx registros))%list
    | Err e =>
        falha_de (AOpen path "a") e w' /\
        exists is_,
          progressos (registro w')
            = (progressos (registro w) ++ map (fun i => (i, total)) is_)%list
    end /\
    (anexos_livres path w -> exists u, r = Ok u).
Proof.
  induction registros as [|row resto IH]; intros idx w Ht.
  - exists (Ok tt), w. simpl. split; [done |]. do 3 (split; [reflexivity |]).
    split; [| by eexists]. exists []. simpl. by rewrite !app_nil_r.
  - simpl.
    destruct (str_vazia (cpf_de row)) eqn:Hv.
    + rewrite bind_eq, corpo_laco_vazio by done. simpl.
      set (w1 := com_registro _ w).
      assert (R_neutra w w1 /\ R_driver w w1 /\ R_oraculo w w1) as (Hn1 & Hd1 & Ho1).
      { repeat split. exists []. by rewrite app_nil_r. }
      assert (progressos (registro w1) = progressos (registro w)) as Hp1.
      { simpl. rewrite progressos_app. simpl. by rewrite app_nil_r. }
      destruct (IH (idx + 1) w1 Ht) as (r & w' & E & Hn & Hd & Ho & Hr & Hprog).
      exists r, w'. split; [exact E |].
      split; [by etransitivity |]. split; [by etransitivity |].
      split; [by etransitivity |].
      split.
      * destruct r as [u|e].
        -- destruct Hr as (outs & Hc & Hres & Hf & Hp). exists outs.
           rewrite cpfs_validos_vazio by done. rewrite <- Hp1. done.
        -- destruct Hr as (Hfa & is_ & Hp). split; [done |]. exists is_.
           by rewrite <- Hp1.
      * intros Hlivre. apply Hprog. by eapply anexos_livres_R.
    + destruct (corpo_laco_valido d sel path total idx row w Hv Ht)
        as (o & r1 & w1 & E1 & _ & Hr1 & Hn1 & Hd1 & Ho1 & Hcase & Hprog1).
      destruct r1 as [[]|e1].
      * rewrite (bind_Ok _ _ _ _ _ E1).
        destruct Hcase as [Hf1 Hp1].
        destruct (IH (idx + 1) w1 Ht) as (r & w' & E & Hn & Hd & Ho & Hr & Hprog).
        exists r, w'. split; [exact E |].
        split; [by etransitivity |]. split; [by etransitivity |].
        split; [by etransitivity |].
        split.
        -- destruct r as [u|e].
           ++ destruct Hr as (outs & Hc & Hres & Hf & Hp).
              exists ((cpf_de row, o) :: outs).
              rewrite cpfs_validos_valido by done.
              split; [simpl; by f_equal |].
              split; [rewrite Hres, Hr1; simpl; by rewrite <- app_assoc |].
              split; [rewrite Hf, Hf1; reflexivity |].
              rewrite Hp, Hp1. simpl. by rewrite <- app_assoc.
           ++ destruct Hr as (Hfa & is_ & Hp). split; [done |].
              exists (idx :: is_). rewrite Hp, Hp1. simpl. by rewrite <- app_assoc.
        -- intros Hlivre. apply Hprog. by eapply anexos_livres_R.
      * rewrite (bind_Err _ _ _ _ _ E1).
        destruct Hcase as (Hfa & _ & Hp1).
        exists (Err e1), w1. split; [done |]. do 3 (split; [done |]).
        split.
        -- split; [done |]. exists []. simpl. by rewrite app_nil_r.
        -- exact Hprog1.
Qed.

Lemma len_cons_nz {A} (x : A) l : len (x :: l) <> 0.
Proof. unfold len. simpl. lia. Qed.

(** The loop as [executar_extracao] runs it: the total is the number of
    rows and the indices start at 1. *)
Lemma laco_len_spec d sel path registros w :
  exists r w',
    laco d sel path (len registros) 1 registros w = (r, w') /\
    R_neutra w w' /\ R_driver w w' /\ R_oraculo w w' /\
    match r with
    | Ok _ =>
        exists outs,
          map fst outs = cpfs_validos registros /\
          var_resultados w' = (var_resultados w ++ map registro_de outs)%list /\
          arquivos w' = fs_anexar_todas path (map linha_de outs) (arquivos w) /\
          progressos (registro w')
            = (progressos (registro w)
                 ++ map (fun i => (i, len registros)) (indices_validos 1 registros))%list
    | Err e =>
        falha_de (AOpen path "a") e w' /\
        exists is_,
          progressos (registro w')
            = (progressos (registro w) ++ map (fun i => (i, len registros)) is_)%list
    end /\
    (anexos_livres path w -> exists u, r = Ok u).
Proof.
  destruct registros as [|row resto].
  - exists (Ok tt), w. simpl. split; [done |]. do 3 (split; [reflexivity |]).
    split; [| by eexists]. exists []. simpl. by rewrite !app_nil_r.
  - apply laco_spec, len_cons_nz.
Qed.

Lemma laco_len_Ok d sel path registros w w' :
  laco d sel path (len registros) 1 registros w = (Ok tt, w') ->
  exists outs,
    map fst outs = cpfs_validos registros /\
    var_resultados w' = (var_resultados w ++ map registro_de outs)%list /\
    arquivos w' = fs_anexar_todas path (map linha_de outs) (arquivos w) /\
    progressos (registro w')
      = (progressos (registro w)
           ++ map (fun i => (i, len registros)) (indices_validos 1 registros))%list.
Proof.
  intros E.
  destruct (laco_len_spec d sel path registros w) as (r & w1 & E1 & _ & _ & _ & Hr & _).
  rewrite E in E1. injection E1 as <- <-. exact Hr.
Qed.

(** ** Per-record failure isolation *)



(** Every record of this batch fails, and the loop still reaches the last
    one. *)
Example lote_com_falhas :
  let r := laco Exemplos.driver Exemplos.sel_completo "streaming.txt" 2 1
             (linhas (Exemplos.planilha ["333"; "444"]))
             (Exemplos.mundo Exemplos.portal_sem_grid Exemplos.sel_completo
                ["333"; "444"]) in
  fst r = Ok tt /\
  var_resultados (snd r) = [dados_erro "333"; dados_erro "444"].
Proof. vm_compute. split; reflexivity. Qed.

(** ** The stream log *)

Lemma append_vazia (c : string) : c ++ "" = c.
Proof.
  induction c as [|x c IH]; [done |].
  change (String x (c ++ "") = String x c). by rewrite IH.
Qed.

Lemma append_assoc (a b c : string) : (a ++ b) ++ c = a ++ (b ++ c).
Proof.
  induction a as [|x a IH]; [done |].
  change (String x ((a ++ b) ++ c) = String x (a ++ (b ++ c))). by rewrite IH.
Qed.





(** The stream log of that batch, evaluated. *)
Example streaming_do_lote :
  texto_em
    (snd (Exemplos.executar Exemplos.portal_ok Exemplos.sel_completo ["111"; ""; "222"]))
    (streaming_path Exemplos.cfg)
  = Some (cabecalho ++ "111;ok;extração concluída" ++ nl
            ++ "222;ok;extração concluída" ++ nl).
Proof. vm_compute. reflexivity. Qed.

(** ** Progress reports *)

(** C5, counterexample: for the batch ["111"; ""; "222"] the two progress
    reports carry the total 3, the number of rows, not 2, the number of rows
    with a non-empty identifier. *)
Lemma C5_total_inclui_ignorados :
  progressos
    (registro (snd (Exemplos.executar Exemplos.portal_ok Exemplos.sel_completo
                      ["111"; ""; "222"])))
  = [(1, 3); (3, 3)] /\
  length (cpfs_validos (linhas (Exemplos.planilha ["111"; ""; "222"]))) = 2%nat.
Proof. vm_compute. split; reflexivity. Qed.

(** C5, amended: the total of every progress report is the number of rows of
    the batch, skipped rows included; when the loop completes, one report
    was issued for each row that is not skipped, carrying the position of
    that row in the input, counted from 1. *)
Theorem C5_total_e_o_numero_de_linhas d sel path registros w :
  exists r w' is_,
    laco d sel path (len registros) 1 registros w = (r, w') /\
    progressos (registro w')
      = (progressos (registro w) ++ map (fun i => (i, len registros)) is_)%list /\
    (forall u, r = Ok u -> is_ = indices_validos 1 registros).
Proof.
  destruct (laco_len_spec d sel path registros w)
    as (r & w' & E & _ & _ & _ & Hr & _).
  destruct r as [u|e].
  - destruct Hr as (outs & _ & _ & _ & Hp).
    exists (Ok u), w', (indices_validos 1 registros). by repeat split.
  - destruct Hr as (_ & is_ & Hp).
    exists (Err e), w', is_. repeat split; [done | done | discriminate].
Qed.

(** With a total of zero the division of the loop body would raise. *)
Example laco_total_zero :
  fst (laco Exemplos.driver Exemplos.sel_completo "streaming.txt" 0 1
         [Exemplos.linha_cpf "111"]
         (Exemplos.mundo Exemplos.portal_ok Exemplos.sel_completo ["111"]))
  = Err ZeroDivisionError.
Proof. vm_compute. reflexivity. Qed.

(** C10: the division of the progress report never divides by zero.  It is
    evaluated in the loop body only, for a row of the list, and the total is
    the length of that list, at least 1: the division returns.  When the
    loop raises, the exception is that of the call that opens the stream
    log, not of the division. *)
Theorem C10_progresso_sem_divisao_por_zero d sel path registros w :
  (forall row idx w0, row ∈ registros ->
     len registros >= 1 /\
     py_truediv idx (len registros) w0
       = (Ok (inject_Z idx / inject_Z (len registros))%Q, w0)) /\
  (forall e w',
     laco d sel path (len registros) 1 registros w = (Err e, w') ->
     falha_de (AOpen path "a") e w').
Proof.
  split.
  - intros row idx w0 Hin. destruct registros as [|r0 resto].
    + by apply elem_of_nil in Hin.
    + split; [unfold len; simpl; lia |].
      unfold py_truediv.
      destruct (Z.eqb_spec (len (r0 :: resto)) 0) as [H0|_]; [| reflexivity].
      by apply len_cons_nz in H0.
  - intros e w' E.
    destruct (laco_len_spec d sel path registros w) as (r & w1 & E1 & _ & _ & _ & Hr & _).
    rewrite E in E1. injection E1 as <- <-. by destruct Hr.
Qed.

Lemma C10_witness :
  len [Exemplos.linha_cpf "111"] >= 1 /\
  py_truediv 1 (len [Exemplos.linha_cpf "111"])
    (Exemplos.mundo Exemplos.portal_ok Exemplos.sel_completo ["111"])
  = (Ok (inject_Z 1 / inject_Z (len [Exemplos.linha_cpf "111"]))%Q,
     Exemplos.mundo Exemplos.portal_ok Exemplos.sel_completo ["111"]).
Proof.
  apply (proj1 (C10_progresso_sem_divisao_por_zero Exemplos.driver
                  Exemplos.sel_completo "streaming.txt" [Exemplos.linha_cpf "111"]
                  (Exemplos.mundo Exemplos.portal_ok Exemplos.sel_completo ["111"]))
           (Exemplos.linha_cpf "111")).
  apply list_elem_of_here.
Defined.

(** When the stream log cannot be opened for appending, the loop stops at
    the first record that is not skipped. *)
Example lote_sem_anexo :
  let r := laco Exemplos.driver Exemplos.sel_completo "streaming.txt" 2 1
             (linhas (Exemplos.planilha ["111"; "222"]))
             (Exemplos.mundo Exemplos.portal_sem_anexo Exemplos.sel_completo
                ["111"; "222"]) in
  fst r = Err (Exc "PermissionError" "") /\
  var_resultados (snd r) = [dados_ok "111"].
Proof. vm_compute. split; reflexivity. Qed.

(** ** Error records *)

Lemma dados_de_campos cpf o :
  dados_de cpf o !! "CPF" = Some (PStr cpf) /\
  dados_de cpf o !! "Status" = Some (status_de o).
Proof. destruct o; split; reflexivity. Qed.

Lemma dados_erro_campos cpf :
  dados_erro cpf !! "ParcelasPagas" = Some PNone /\
  dados_erro cpf !! "Saldo" = Some PNone.
Proof. split; reflexivity. Qed.

(** C7: in the iteration for a row with a non-empty CPF, the record retained
    in [resultados] and the line appended to the stream log carry the same
    status; that status is "erro" exactly when [extrair_dados_para_cpf]
    raised, and then the payload fields ParcelasPagas and Saldo are [None]
    and the message of the line is "erro: " followed by the class name of
    the exception.  The line is appended whenever the iteration returns. *)
Theorem C7_status_erro_sse_excecao d sel path total idx row w :
  str_vazia (cpf_de row) = false -> total <> 0 ->
  exists (dados : gmap string PyVal) (status mensagem : string) r w',
    corpo_laco d sel path total idx row w = (r, w') /\
    var_resultados w' = (var_resultados w ++ [dados])%list /\
    (forall u, r = Ok u ->
       arquivos w'
       = fs_anexar path (linha_streaming (cpf_de row) status mensagem) (arquivos w)) /\
    (anexos_livres path w -> exists u, r = Ok u) /\
    dados !! "CPF" = Some (PStr (cpf_de row)) /\
    dados !! "Status" = Some (PStr status) /\
    (status = "erro" <->
       exists e w1, extrair_dados_para_cpf d sel (cpf_de row) 20 w = (Err e, w1)) /\
    (forall e w1,
       extrair_dados_para_cpf d sel (cpf_de row) 20 w = (Err e, w1) ->
       dados !! "ParcelasPagas" = Some PNone /\
       dados !! "Saldo" = Some PNone /\
       mensagem = "erro: " ++ classe e).
Proof.
  intros Hv Ht.
  destruct (corpo_laco_valido d sel path total idx row w Hv Ht)
    as (o & r & w' & E & Ho & Hr & _ & _ & _ & Hcase & Hprog).
  destruct (dados_de_campos (cpf_de row) o) as [Hcpf Hst].
  exists (dados_de (cpf_de row) o), (py_str (status_de o)), (mensagem_de o), r, w'.
  split; [exact E |]. split; [exact Hr |].
  split; [intros u ->; by destruct Hcase |].
  split; [exact Hprog |]. split; [exact Hcpf |].
  destruct o as [e|]; simpl in *.
  - destruct Ho as [w1 Ho]. split; [exact Hst |]. split.
    + split; [eauto | done].
    + intros e' w1' He'. rewrite Ho in He'. injection He' as <- <-.
      destruct (dados_erro_campos (cpf_de row)). done.
  - destruct Ho as [w1 Ho]. split; [exact Hst |]. split.
    + split; [discriminate |]. intros (e & w1' & He). by rewrite Ho in He.
    + intros e w1' He. by rewrite Ho in He.
Qed.

Lemma C7_witness :
  exists (dados : gmap string PyVal) (status mensagem : string) r w',
    corpo_laco Exemplos.driver Exemplos.sel_completo "streaming.txt" 1 1
      (Exemplos.linha_cpf "333")
      (Exemplos.mundo Exemplos.portal_sem_grid Exemplos.sel_completo ["333"])
    = (r, w') /\
    dados !! "Status" = Some (PStr status) /\
    (status = "erro" <->
       exists e w1,
         extrair_dados_para_cpf Exemplos.driver Exemplos.sel_completo
           (cpf_de (Exemplos.linha_cpf "333")) 20
           (Exemplos.mundo Exemplos.portal_sem_grid Exemplos.sel_completo ["333"])
         = (Err e, w1)).
Proof.
  destruct (C7_status_erro_sse_excecao Exemplos.driver Exemplos.sel_completo
              "streaming.txt" 1 1 (Exemplos.linha_cpf "333")
              (Exemplos.mundo Exemplos.portal_sem_grid Exemplos.sel_completo ["333"]))
    as (dados & status & mensagem & r & w' & E & _ & _ & _ & _ & Hs & Hiff & _).
  - reflexivity.
  - lia.
  - exists dados, status, mensagem, r, w'.
    split; [exact E |]. split; [exact Hs | exact Hiff].
Defined.

(** The failing record of the scenario, evaluated: the retained record and
    the line of the stream log. *)
Example registro_333 :
  let w' := snd (corpo_laco Exemplos.driver Exemplos.sel_completo
                   "streaming.txt" 1 1 (Exemplos.linha_cpf "333")
                   (Exemplos.mundo Exemplos.portal_sem_grid Exemplos.sel_completo ["333"])) in
  var_resultados w' = [dados_erro "333"] /\
  texto_em w' "streaming.txt" = Some ("333;erro;erro: TimeoutException" ++ nl).
Proof. vm_compute. split; reflexivity. Qed.

(** ** Initialising the stream log *)

Lemma agir_Ok_inv a w w' :
  agir a w = (Ok tt, w') ->
  oraculo w (historia w) a = None /\
  w' = com_historia (historia w ++ [(a, None)])%list w.
Proof.
  unfold agir. destruct (oraculo w (historia w) a); [discriminate |].
  by intros [= <-].
Qed.

Lemma inicializar_streaming_Ok_inv path w w' :
  inicializar_streaming path w = (Ok tt, w') ->
  arquivos w' = <[path := ArqTexto cabecalho]> (arquivos w).
Proof.
  unfold inicializar_streaming, os_makedirs_dirname, escrever. intros H.
  apply bind_inv_Ok in H as ([] & w1 & E1 & H). apply agir_Ok_inv in E1 as [_ ->].
  apply bind_inv_Ok in H as ([] & w2 & E2 & H).
  apply bind_inv_Ok in E2 as ([] & w3 & E3 & E2). apply agir_Ok_inv in E3 as [_ ->].
  injection E2 as <-. by injection H as <-.
Qed.




(** When the directory of the stream log cannot be created the call raises
    and no file is left. *)
Example inicializar_sem_diretorio :
  let r := inicializar_streaming "streaming.txt"
             (Exemplos.mundo Exemplos.portal_sem_diretorio Exemplos.sel_completo []) in
  fst r = Err (FileNotFoundError "") /\
  arquivos (snd r) !! "streaming.txt" = None.
Proof. vm_compute. split; reflexivity. Qed.

(** ** Frames of the phases of a run *)

Ltac geral lem :=
  first
    [ apply (lem R_dados _ (fun a _ => agir_dados a) (fun n f a _ => logging_dados n f a))
    | apply (lem R_neutra _ agir_neutra (fun n f a _ => logging_neutra n f a))
    | apply (lem R_driver _ (fun a _ => agir_driver a) (fun n f a _ => logging_driver n f a))
    | apply (lem R_registro _ (fun a _ => agir_registro a) logging_registro)
    | apply (lem R_oraculo _ (fun a _ => agir_oraculo a) (fun n f a _ => logging_oraculo n f a)) ].

(** The same for the phases that touch no browser. *)
Ltac geral_sem_navegador lem :=
  first
    [ apply (lem R_dados _ (fun n f a _ => logging_dados n f a))
    | apply (lem R_neutra _ (fun n f a _ => logging_neutra n f a))
    | apply (lem R_driver _ (fun n f a _ => logging_driver n f a))
    | apply (lem R_registro _ logging_registro)
    | apply (lem R_oraculo _ (fun n f a _ => logging_oraculo n f a))
    | apply (lem _ _) ].

Ltac mantem_fase :=
  lazymatch goal with
  | |- mantem _ (login _ _ _ _ _) => geral login_mantem
  | |- mantem _ (navegar_para_modulo_consulta _ _) => geral navegar_mantem
  | |- mantem _ (carregar_entrada _) => geral_sem_navegador carregar_entrada_mantem
  | |- mantem _ (carregar_selectors _) => geral_sem_navegador carregar_selectors_mantem
  | |- mantem _ (extrair_dados_para_cpf _ _ _ _) => geral extrair_dados_mantem
  | |- mantem _ (extrair_ou_erro _ _ _) => geral extrair_ou_erro_mantem
  | |- mantem _ (append_streaming _ _ _ _) => unfold append_streaming
  | |- mantem _ (iniciar_driver _) => unfold iniciar_driver
  | |- mantem _ driver_quit => unfold driver_quit
  | |- _ => mantem_passo
  end.

Ltac mantem_fases :=
  cbv [logging_info logging_warning logging_exception];
  repeat mantem_fase.

Lemma corpo_laco_neutra d sel path total idx row :
  mantem R_neutra (corpo_laco d sel path total idx row).
Proof. unfold corpo_laco. mantem_fases. Qed.

Lemma corpo_laco_driver d sel path total idx row :
  mantem R_driver (corpo_laco d sel path total idx row).
Proof. unfold corpo_laco. mantem_fases. Qed.

Lemma corpo_laco_oraculo d sel path total idx row :
  mantem R_oraculo (corpo_laco d sel path total idx row).
Proof. unfold corpo_laco. mantem_fases. Qed.

Section Laco.
Context (R : Estado -> Estado -> Prop) `{!PreOrder R}.
Hypothesis R_corpo :
  forall d sel path total idx row, mantem R (corpo_laco d sel path total idx row).

Lemma laco_mantem d sel path total registros :
  forall idx, mantem R (laco d sel path total idx registros).
Proof.
  induction registros as [|row resto IH]; intros idx; simpl.
  - apply (mantem_ret R).
  - apply (mantem_bind R); [apply R_corpo | intros _; apply IH].
Qed.
End Laco.

Lemma consolidar_neutra p : mantem R_neutra (consolidar p).
Proof. unfold consolidar. mantem_fases. Qed.
Lemma consolidar_driver p : mantem R_driver (consolidar p).
Proof. unfold consolidar. mantem_fases. Qed.
Lemma consolidar_registro p : mantem R_registro (consolidar p).
Proof. unfold consolidar. mantem_fases. Qed.

Lemma bloco_finally_dados : mantem R_dados bloco_finally.
Proof. unfold bloco_finally. mantem_fases. Qed.
Lemma bloco_finally_driver : mantem R_driver bloco_finally.
Proof. unfold bloco_finally. mantem_fases. Qed.

(** What follows the launch of the browser in the [try] block. *)
Lemma bloco_try_eq u s entrada saida cfg sel w :
  bloco_try u s entrada saida cfg sel w =
  match iniciar_driver (driver_path cfg) w with
  | (Ok d, w1) =>
      (atribuir_driver (Some d) ;;;
       login d sel (portal_url cfg) u s ;;;
       navegar_para_modulo_consulta d sel ;;;
       registros <- carregar_entrada entrada ;;
       laco d sel (streaming_path cfg) (len registros) 1 registros ;;;
       consolidar saida) w1
  | (Err e, w1) => (Err e, w1)
  end.
Proof. reflexivity. Qed.

Lemma sessao_neutra d u s entrada saida cfg sel :
  mantem R_neutra
    (login d sel (portal_url cfg) u s ;;;
     navegar_para_modulo_consulta d sel ;;;
     registros <- carregar_entrada entrada ;;
     laco d sel (streaming_path cfg) (len registros) 1 registros ;;;
     consolidar saida).
Proof.
  mantem_fase. { mantem_fase. } mantem_fase. { mantem_fase. }
  mantem_fase. { mantem_fase. } mantem_fase.
  - apply (laco_mantem R_neutra), corpo_laco_neutra.
  - apply consolidar_neutra.
Qed.

Lemma sessao_driver d u s entrada saida cfg sel :
  mantem R_driver
    (login d sel (portal_url cfg) u s ;;;
     navegar_para_modulo_consulta d sel ;;;
     registros <- carregar_entrada entrada ;;
     laco d sel (streaming_path cfg) (len registros) 1 registros ;;;
     consolidar saida).
Proof.
  mantem_fase. { mantem_fase. } mantem_fase. { mantem_fase. }
  mantem_fase. { mantem_fase. } mantem_fase.
  - apply (laco_mantem R_driver), corpo_laco_driver.
  - apply consolidar_driver.
Qed.

Lemma carregar_selectors_puro p w r w' :
  carregar_selectors p w = (r, w') -> w' = w.
Proof.
  unfold carregar_selectors, bind, os_path_exists, json_load, raise, ret.
  repeat case_match; intros; by simplify_eq.
Qed.

Lemma carregar_selectors_Ok p w sel :
  arquivos w !! p = Some (ArqJson (JObjeto sel)) ->
  carregar_selectors p w = (Ok sel, w).
Proof.
  intros H. unfold carregar_selectors, bind, os_path_exists, json_load, ret.
  rewrite H. rewrite bool_decide_true by eauto. simpl. by rewrite H.
Qed.

Lemma executar_extracao_eq u s entrada saida cfg w :
  executar_extracao u s entrada saida cfg w =
  match carregar_selectors (selectors_file cfg) w with
  | (Ok sel, _) =>
      match inicializar_streaming (streaming_path cfg) w with
      | (Ok _, w0) =>
          try_finally (bloco_try u s entrada saida cfg sel) bloco_finally
            (mundo_do_try w0)
      | (Err e, w0) => (Err e, w0)
      end
  | (Err e, _) => (Err e, w)
  end.
Proof.
  unfold executar_extracao. rewrite bind_eq.
  destruct (carregar_selectors (selectors_file cfg) w) as [[sel|e] w1] eqn:E;
    apply carregar_selectors_puro in E as ->; [| reflexivity].
  rewrite bind_eq.
  destruct (inicializar_streaming (streaming_path cfg) w) as [[[]|e] w0];
    reflexivity.
Qed.

Lemma inicializar_streaming_neutra p : mantem R_neutra (inicializar_streaming p).
Proof. unfold inicializar_streaming. mantem_fases. Qed.
Lemma inicializar_streaming_oraculo p : mantem R_oraculo (inicializar_streaming p).
Proof. unfold inicializar_streaming. mantem_fases. Qed.

(** ** Session teardown *)

Lemma chamadas_quit_app h1 h2 :
  chamadas_quit (h1 ++ h2)%list = (chamadas_quit h1 + chamadas_quit h2)%nat.
Proof. unfold chamadas_quit. by rewrite filter_app, length_app. Qed.

Lemma sessoes_iniciadas_app h1 h2 :
  sessoes_iniciadas (h1 ++ h2)%list = (sessoes_iniciadas h1 + sessoes_iniciadas h2)%nat.
Proof. unfold sessoes_iniciadas. by rewrite filter_app, length_app. Qed.

Lemma neutras_nao_contam h :
  forallb acao_neutra h = true ->
  chamadas_quit h = 0%nat /\ sessoes_iniciadas h = 0%nat.
Proof.
  induction h as [|[a r] h IH]; simpl; [done |].
  intros [Ha Hh]%andb_true_iff. destruct (IH Hh) as [IH1 IH2].
  change ((a, r) :: h) with ([(a, r)] ++ h)%list.
  rewrite chamadas_quit_app, sessoes_iniciadas_app, IH1, IH2.
  destruct a; try discriminate; done.
Qed.

Lemma bloco_finally_sem_driver w :
  var_driver w = None -> bloco_finally w = (Ok tt, w).
Proof. intros H. unfold bloco_finally, bind, ler_driver. by rewrite H. Qed.

Lemma bloco_finally_com_driver w d r w' :
  var_driver w = Some d -> bloco_finally w = (r, w') ->
  exists x, historia w' = (historia w ++ [(AQuit, x)])%list.
Proof.
  intros H. unfold bloco_finally, bind, ler_driver. rewrite H.
  unfold driver_quit, agir, logging_info, logging.
  destruct (oraculo w (historia w) AQuit) as [e|]; intros [= <- <-]; eauto.
Qed.

Lemma iniciar_driver_eq p w :
  iniciar_driver p w =
  match oraculo w (historia w) (AEdge p) with
  | None => (Ok (Edge p), com_historia (historia w ++ [(AEdge p, None)])%list w)
  | Some e => (Err e, com_historia (historia w ++ [(AEdge p, Some e)])%list w)
  end.
Proof.
  unfold iniciar_driver, bind, agir, ret.
  by destruct (oraculo w (historia w) (AEdge p)).
Qed.

(** C6: in a run that reaches the [try] statement (the selectors were
    loaded and the stream log initialised), the [finally] block is executed
    after the [try] block whatever the outcome of that block, and
    [driver.quit()] is called as many times as the browser was launched
    with success, which is once or never: exactly once when the session
    start succeeded, however login, navigation or the records went, and
    not at all when the session was never started. *)
Theorem C6_quit_uma_vez_por_sessao u s entrada saida cfg sel w w0 :
  carregar_selectors (selectors_file cfg) w = (Ok sel, w) ->
  inicializar_streaming (streaming_path cfg) w = (Ok tt, w0) ->
  exists r1 w1 r2 w2 h,
    bloco_try u s entrada saida cfg sel (mundo_do_try w0) = (r1, w1) /\
    bloco_finally w1 = (r2, w2) /\
    executar_extracao u s entrada saida cfg w
      = (match r2 with Ok _ => r1 | Err e => Err e end, w2) /\
    historia w2 = (historia w ++ h)%list /\
    chamadas_quit h = sessoes_iniciadas h /\
    (sessoes_iniciadas h <= 1)%nat.
Proof.
  intros Hsel Hini. rewrite executar_extracao_eq, Hsel, Hini. unfold try_finally.
  pose proof (inicializar_streaming_neutra _ _ _ _ Hini) as (h0 & Hh0 & Hn0).
  destruct (neutras_nao_contam h0 Hn0) as [Hq0 Hs0].
  rewrite bloco_try_eq, iniciar_driver_eq.
  set (wt := mundo_do_try w0).
  assert (historia wt = (historia w ++ h0)%list) as Hwt by exact Hh0.
  destruct (oraculo wt (historia wt) (AEdge (driver_path cfg))) as [e|] eqn:Hp.
  - (* the browser could not be launched *)
    set (w1 := com_historia _ wt).
    exists (Err e), w1, (Ok tt), w1, (h0 ++ [(AEdge (driver_path cfg), Some e)])%list.
    rewrite (bloco_finally_sem_driver w1) by done.
    split; [done |]. split; [done |]. split; [done |].
    split; [simpl; by rewrite Hh0, <- app_assoc |].
    rewrite chamadas_quit_app, sessoes_iniciadas_app, Hq0, Hs0.
    split; [reflexivity | cbv; lia].
  - (* the session is started *)
    set (w1 := com_historia _ wt).
    rewrite bind_eq. cbv [atribuir_driver].
    set (w1' := com_driver _ w1).
    match goal with
    | |- context [(bind ?c ?k) w1'] => destruct (bind c k w1') as [r1 w2] eqn:E
    end.
    pose proof (sessao_neutra _ _ _ _ _ _ _ _ _ _ E) as (hn & Hh & Hn).
    pose proof (sessao_driver _ _ _ _ _ _ _ _ _ _ E) as Hd.
    destruct (bloco_finally w2) as [r2 w3] eqn:F.
    destruct (bloco_finally_com_driver w2 (Edge (driver_path cfg)) r2 w3)
      as [x Hq]; [by rewrite Hd | done |].
    destruct (neutras_nao_contam hn Hn) as [Hn1 Hn2].
    exists r1, w2, r2, w3,
      (h0 ++ [(AEdge (driver_path cfg), None)] ++ hn ++ [(AQuit, x)])%list.
    split; [done |]. split; [done |]. split; [by destruct r2 as [[]|] |].
    split; [rewrite Hq, Hh; simpl; by rewrite Hh0, <- !app_assoc |].
    rewrite !chamadas_quit_app, !sessoes_iniciadas_app, Hq0, Hs0, Hn1, Hn2.
    split; [reflexivity | cbv; lia].
Qed.

(** ** Input and consolidation *)

Lemma carregar_entrada_Ok_inv p w regs w' :
  carregar_entrada p w = (Ok regs, w') ->
  exists pl, arquivos w !! p = Some (ArqExcel pl) /\ "CPF" ∈ colunas pl /\ regs = linhas pl.
Proof.
  unfold carregar_entrada. intros H.
  apply bind_inv_Ok in H as (ex & w1 & E1 & H).
  unfold os_path_exists in E1. injection E1 as <- <-.
  destruct (bool_decide (is_Some (arquivos w !! p))); simpl in H; [| discriminate].
  apply bind_inv_Ok in H as (df & w2 & E2 & H).
  unfold pd_read_excel in E2.
  destruct (arquivos w !! p) as [[c|j|pl|]|]; try discriminate.
  injection E2 as <- <-.
  destruct (bool_decide ("CPF" ∈ colunas pl)) eqn:Hc; simpl in H; [| discriminate].
  apply bind_inv_Ok in H as (? & ? & _ & H). injection H as <- _.
  exists pl. by apply bool_decide_eq_true in Hc.
Qed.

Lemma carregar_entrada_Ok p w pl :
  arquivos w !! p = Some (ArqExcel pl) -> "CPF" ∈ colunas pl ->
  exists w', carregar_entrada p w = (Ok (linhas pl), w').
Proof.
  intros Hf Hc.
  unfold carregar_entrada, bind, os_path_exists, pd_read_excel, raise, ret,
    logging_info, logging.
  rewrite Hf. rewrite bool_decide_true by eauto. simpl.
  rewrite Hf. rewrite bool_decide_true by done. simpl. eauto.
Qed.

Lemma consolidar_Ok_inv saida w w' :
  consolidar saida w = (Ok tt, w') ->
  arquivos w' = fs_consolidar saida (var_resultados w) (arquivos w) /\
  (var_resultados w = [] -> registro w' = (registro w ++ [aviso_sem_resultados])%list).
Proof.
  unfold consolidar, fs_consolidar. rewrite bind_eq. cbv [ler_resultados].
  destruct (var_resultados w) as [|r rs] eqn:Hr.
  - intros [= <-]. by split.
  - unfold os_makedirs_dirname, to_excel. intros H.
    apply bind_inv_Ok in H as ([] & w1 & E1 & H). apply agir_Ok_inv in E1 as [_ ->].
    apply bind_inv_Ok in H as ([] & w2 & E2 & H).
    apply bind_inv_Ok in E2 as ([] & w3 & E3 & E2). apply agir_Ok_inv in E3 as [_ ->].
    injection E2 as <-. injection H as <-. by split.
Qed.


Lemma iniciar_driver_dados p : mantem R_dados (iniciar_driver p).
Proof. mantem_fases. Qed.
Lemma iniciar_driver_driver p : mantem R_driver (iniciar_driver p).
Proof. mantem_fases. Qed.
Lemma iniciar_driver_oraculo p : mantem R_oraculo (iniciar_driver p).
Proof. mantem_fases. Qed.
Lemma login_dados d sel url u s : mantem R_dados (login d sel url u s).
Proof. mantem_fases. Qed.
Lemma login_driver d sel url u s : mantem R_driver (login d sel url u s).
Proof. mantem_fases. Qed.
Lemma navegar_dados d sel : mantem R_dados (navegar_para_modulo_consulta d sel).
Proof. mantem_fases. Qed.
Lemma navegar_driver d sel : mantem R_driver (navegar_para_modulo_consulta d sel).
Proof. mantem_fases. Qed.
Lemma carregar_entrada_dados p : mantem R_dados (carregar_entrada p).
Proof. mantem_fases. Qed.
Lemma carregar_entrada_driver p : mantem R_driver (carregar_entrada p).
Proof. mantem_fases. Qed.

(** A [try] block that returns: the input was a workbook with a CPF column,
    the stream log grew by one line per valid row, and the workbook of
    results was written when some row was valid. *)
Lemma bloco_try_Ok u s entrada saida cfg sel w w' :
  var_resultados w = [] ->
  bloco_try u s entrada saida cfg sel w = (Ok tt, w') ->
  exists p outs,
    arquivos w !! entrada = Some (ArqExcel p) /\
    "CPF" ∈ colunas p /\
    map fst outs = cpfs_validos (linhas p) /\
    arquivos w'
      = fs_consolidar saida (map registro_de outs)
          (fs_anexar_todas (streaming_path cfg) (map linha_de outs) (arquivos w)) /\
    var_driver w' = Some (Edge (driver_path cfg)) /\
    (outs = [] -> exists l, registro w' = (l ++ [aviso_sem_resultados])%list).
Proof.
  intros Hres H. rewrite bloco_try_eq in H.
  destruct (iniciar_driver (driver_path cfg) w) as [[d|e] w1] eqn:E0; [| discriminate].
  pose proof (iniciar_driver_dados _ _ _ _ E0) as [Hf0 Hr0].
  assert (d = Edge (driver_path cfg)) as ->.
  { rewrite iniciar_driver_eq in E0. by destruct (oraculo w _ _); simplify_eq. }
  apply bind_inv_Ok in H as ([] & w2 & E1 & H).
  injection E1 as <-.
  apply bind_inv_Ok in H as ([] & w3 & E2 & H).
  pose proof (login_dados _ _ _ _ _ _ _ _ E2) as [Hf2 Hr2].
  pose proof (login_driver _ _ _ _ _ _ _ _ E2) as Hd2.
  apply bind_inv_Ok in H as ([] & w4 & E3 & H).
  pose proof (navegar_dados _ _ _ _ _ E3) as [Hf3 Hr3].
  pose proof (navegar_driver _ _ _ _ _ E3) as Hd3.
  apply bind_inv_Ok in H as (regs & w5 & E4 & H).
  pose proof (carregar_entrada_dados _ _ _ _ E4) as [Hf4 Hr4].
  pose proof (carregar_entrada_driver _ _ _ _ E4) as Hd4.
  apply carregar_entrada_Ok_inv in E4 as (p & Hp & Hc & ->).
  apply bind_inv_Ok in H as ([] & w6 & E5 & H).
  pose proof (laco_mantem R_driver corpo_laco_driver _ _ _ _ _ _ _ _ _ E5) as Hd5.
  apply laco_len_Ok in E5 as (outs & Hcp & Hr5 & Hf5 & _).
  pose proof (consolidar_driver _ _ _ _ H) as Hd6.
  apply consolidar_Ok_inv in H as [Hf6 Hl6].
  assert (var_resultados w6 = map registro_de outs) as Hr6.
  { rewrite Hr5, Hr4, Hr3, Hr2. simpl. by rewrite Hr0, Hres. }
  unfold R_driver in *. simpl in *.
  exists p, outs.
  split; [by rewrite <- Hf0, <- Hf2, <- Hf3 |].
  split; [done |]. split; [done |].
  split; [by rewrite Hf6, Hr6, Hf5, Hf4, Hf3, Hf2, Hf0 |].
  split; [by rewrite Hd6, Hd5, Hd4, Hd3, Hd2 |].
  intros ->. exists (registro w6). apply Hl6. by rewrite Hr6.
Qed.

(** A run of [executar_extracao] that gets past the selectors is the [try]
    block followed by the [finally] block. *)
Lemma executar_Ok_inv u s entrada saida cfg w w' :
  executar_extracao u s entrada saida cfg w = (Ok tt, w') ->
  exists sel w0 w1,
    carregar_selectors (selectors_file cfg) w = (Ok sel, w) /\
    inicializar_streaming (streaming_path cfg) w = (Ok tt, w0) /\
    bloco_try u s entrada saida cfg sel (mundo_do_try w0) = (Ok tt, w1) /\
    bloco_finally w1 = (Ok tt, w').
Proof.
  rewrite executar_extracao_eq.
  destruct (carregar_selectors (selectors_file cfg) w) as [[sel|e] wx] eqn:Hs;
    [| discriminate].
  pose proof (carregar_selectors_puro _ _ _ _ Hs) as ->.
  destruct (inicializar_streaming (streaming_path cfg) w) as [[[]|e] w0] eqn:Hi;
    [| discriminate].
  unfold try_finally.
  destruct (bloco_try u s entrada saida cfg sel (mundo_do_try w0)) as [r1 w1] eqn:E.
  destruct (bloco_finally w1) as [[[]|e2] w2] eqn:F; intros [= -> ->].
  by exists sel, w0, w1.
Qed.



(** The run of that scenario, evaluated: two error rows, two error lines. *)
Example lote_sem_grid :
  let w' := snd (Exemplos.executar Exemplos.portal_sem_grid Exemplos.sel_completo
                   ["111"; ""; "222"]) in
  texto_em w' (streaming_path Exemplos.cfg)
  = Some (cabecalho ++ "111;erro;erro: TimeoutException" ++ nl
            ++ "222;erro;erro: TimeoutException" ++ nl) /\
  arquivos w' !! "saida/consolidado.xlsx"
  = Some (ArqExcel (pd_DataFrame [dados_erro "111"; dados_erro "222"])).
Proof. vm_compute. split; reflexivity. Qed.

(** ** Runs in which the oracle refuses nothing *)

Section Termina.
Context (E : Excecao -> Prop).

Lemma termina_ret {A} (a : A) : termina E (ret a).
Proof. intros w Hl. exists (Ok a), w. by repeat split. Qed.

Lemma termina_bind {A B} (c : M A) (k : A -> M B) :
  termina E c -> (forall a, termina E (k a)) -> termina E (bind c k).
Proof.
  intros Hc Hk w Hl. destruct (Hc w Hl) as ([a|e] & w1 & Ec & Hl1 & He).
  - destruct (Hk a w1 Hl1) as (r & w2 & Ek & Hl2 & He2).
    exists r, w2. by rewrite (bind_Ok _ _ _ _ _ Ec).
  - exists (Err e), w1. by rewrite (bind_Err _ _ _ _ _ Ec).
Qed.

Lemma termina_agir a : termina E (agir a).
Proof.
  intros w Hl. unfold agir. rewrite Hl.
  eexists (Ok tt), _. split; [reflexivity |]. split; [| done].
  intros h x. apply Hl.
Qed.

Lemma termina_logging n f a : termina E (logging n f a).
Proof.
  intros w Hl. eexists (Ok tt), _. split; [reflexivity |]. split; [| done].
  intros h x. apply Hl.
Qed.

Lemma termina_item (d : gmap string string) k :
  (d !! k = None -> E (KeyError k)) -> termina E (item d k).
Proof.
  intros Hk w Hl. unfold item. destruct (d !! k) as [v|].
  - exists (Ok v), w. by repeat split.
  - exists (Err (KeyError k)), w. repeat split; [done |]. by apply Hk.
Qed.

Lemma termina_login d sel url u s :
  (forall k, k ∈ chaves_de_sessao -> sel !! k = None -> E (KeyError k)) ->
  termina E (login d sel url u s).
Proof.
  intros Hk. unfold login, logging_info, driver_get, wait_presence, find_element,
    clear, send_keys, click.
  repeat first
    [ apply termina_bind; [| intros ?]
    | apply termina_agir | apply termina_logging | apply termina_ret
    | apply termina_item, Hk; unfold chaves_de_sessao;
      repeat first [apply list_elem_of_here | apply list_elem_of_further] ].
Qed.

Lemma termina_navegar d sel :
  (forall k, k ∈ chaves_de_sessao -> sel !! k = None -> E (KeyError k)) ->
  termina E (navegar_para_modulo_consulta d sel).
Proof.
  intros Hk. unfold navegar_para_modulo_consulta, logging_info, wait_clickable, click.
  repeat first
    [ apply termina_bind; [| intros ?]
    | apply termina_agir | apply termina_logging | apply termina_ret
    | apply termina_item, Hk; unfold chaves_de_sessao;
      repeat first [apply list_elem_of_here | apply list_elem_of_further] ].
Qed.
End Termina.

Lemma bloco_finally_livre w :
  oraculo_livre w -> exists w', bloco_finally w = (Ok tt, w').
Proof.
  intros Hl. unfold bloco_finally, bind, ler_driver.
  destruct (var_driver w); [| by eexists].
  unfold driver_quit, agir. rewrite Hl. simpl. eauto.
Qed.

Lemma erro_de_chave_intro sel k :
  k ∈ chaves_de_sessao -> sel !! k = None -> erro_de_chave sel (KeyError k).
Proof. intros Hk Hn. by exists k. Qed.

(** ** Selector keys *)

Lemma item_Ok_inv (d : gmap string string) k w v w' :
  item d k w = (Ok v, w') -> d !! k = Some v.
Proof. unfold item. destruct (d !! k); [by intros [= <- _] | discriminate]. Qed.

Lemma login_Ok_chaves d sel url u s w w' :
  login d sel url u s w = (Ok tt, w') ->
  is_Some (sel !! "campo_usuario") /\ is_Some (sel !! "campo_senha") /\
  is_Some (sel !! "botao_entrar") /\ is_Some (sel !! "menu_cadastro").
Proof.
  unfold login. intros H.
  repeat (apply bind_inv_Ok in H as (? & ? & ? & H));
    repeat match goal with
           | E : item _ _ _ = (Ok _, _) |- _ => apply item_Ok_inv in E
           end.
  eauto 10.
Qed.

Lemma navegar_Ok_chaves d sel w w' :
  navegar_para_modulo_consulta d sel w = (Ok tt, w') ->
  is_Some (sel !! "menu_cadastro") /\ is_Some (sel !! "menu_proposta").
Proof.
  unfold navegar_para_modulo_consulta. intros H.
  repeat (apply bind_inv_Ok in H as (? & ? & ? & H));
    repeat match goal with
           | E : item _ _ _ = (Ok _, _) |- _ => apply item_Ok_inv in E
           end.
  eauto 10.
Qed.

(** Without a key of the session the [try] block raises before it reads the
    input, leaving files and retained results as they were. *)
Lemma bloco_try_sem_chave u s entrada saida cfg sel k w r w' :
  k ∈ chaves_de_sessao -> sel !! k = None ->
  bloco_try u s entrada saida cfg sel w = (r, w') ->
  (exists e, r = Err e) /\ R_dados w w'.
Proof.
  intros Hk Hnone. rewrite bloco_try_eq.
  destruct (iniciar_driver (driver_path cfg) w) as [[d|e] w1] eqn:E0.
  2: { intros [= <- <-]. split; [eauto | by eapply iniciar_driver_dados]. }
  pose proof (iniciar_driver_dados _ _ _ _ E0) as H0.
  rewrite bind_eq. cbv [atribuir_driver]. rewrite bind_eq.
  set (w2 := com_driver (Some d) w1).
  assert (R_dados w w2) as H1 by (destruct H0; by split).
  destruct (login d sel (portal_url cfg) u s w2) as [[[]|e] w3] eqn:E2.
  2: { intros [= <- <-]. split; [eauto |].
       etransitivity; [exact H1 | by eapply login_dados]. }
  pose proof (login_dados _ _ _ _ _ _ _ _ E2) as H2.
  apply login_Ok_chaves in E2 as (K1 & K2 & K3 & K4).
  rewrite bind_eq.
  destruct (navegar_para_modulo_consulta d sel w3) as [[[]|e] w4] eqn:E3.
  2: { intros [= <- <-]. split; [eauto |].
       etransitivity; [exact H1 |]. etransitivity; [exact H2 | by eapply navegar_dados]. }
  apply navegar_Ok_chaves in E3 as (_ & K5).
  exfalso. unfold chaves_de_sessao in Hk.
  repeat (apply elem_of_cons in Hk as [-> | Hk]);
    try (rewrite Hnone in *;
         match goal with K : is_Some None |- _ => by destruct K end).
  by apply elem_of_nil in Hk.
Qed.

(** When the oracle refuses nothing, the exception of that [try] block is
    the [KeyError] of a key of the session that the map lacks. *)
Lemma bloco_try_erro_de_chave u s entrada saida cfg sel k w :
  oraculo_livre w -> k ∈ chaves_de_sessao -> sel !! k = None ->
  exists e w',
    bloco_try u s entrada saida cfg sel w = (Err e, w') /\
    erro_de_chave sel e /\ oraculo_livre w'.
Proof.
  intros Hl Hk Hnone.
  destruct (bloco_try u s entrada saida cfg sel w) as [r w'] eqn:E.
  destruct (bloco_try_sem_chave _ _ _ _ _ _ _ _ _ _ Hk Hnone E) as [[e ->] _].
  exists e, w'. split; [done |].
  rewrite bloco_try_eq, iniciar_driver_eq, Hl in E.
  set (d := Edge (driver_path cfg)) in E.
  rewrite bind_eq in E. cbv [atribuir_driver] in E.
  match type of E with
  | context [com_driver (Some d) ?w1] => set (w2 := com_driver (Some d) w1) in E
  end.
  assert (oraculo_livre w2) as Hl2 by (intros h x; apply Hl).
  destruct (termina_login (erro_de_chave sel) d sel (portal_url cfg) u s
              (erro_de_chave_intro sel) w2 Hl2)
    as ([[]|e2] & w3 & E2 & Hl3 & He2).
  2: { rewrite (bind_Err _ _ _ _ _ E2) in E. by injection E as <- <-. }
  rewrite (bind_Ok _ _ _ _ _ E2) in E.
  destruct (termina_navegar (erro_de_chave sel) d sel (erro_de_chave_intro sel) w3 Hl3)
    as ([[]|e3] & w4 & E3 & Hl4 & He3).
  2: { rewrite (bind_Err _ _ _ _ _ E3) in E. by injection E as <- <-. }
  exfalso.
  apply login_Ok_chaves in E2 as (K1 & K2 & K3 & K4).
  apply navegar_Ok_chaves in E3 as (_ & K5).
  unfold chaves_de_sessao in Hk.
  repeat (apply elem_of_cons in Hk as [-> | Hk]);
    try (rewrite Hnone in *;
         match goal with K : is_Some None |- _ => by destruct K end).
  by apply elem_of_nil in Hk.
Qed.

(** C4, counterexample: the key of the results grid is required by the
    per-record protocol; without it the batch does not fail, the record is
    processed as an error and its line is added to the stream log. *)
Lemma C4_chave_da_grade_ausente :
  Exemplos.sel_sem_grid !! "grid_resultados" = None /\
  fst (Exemplos.executar Exemplos.portal_ok Exemplos.sel_sem_grid ["111"]) = Ok tt /\
  texto_em (snd (Exemplos.executar Exemplos.portal_ok Exemplos.sel_sem_grid ["111"]))
    (streaming_path Exemplos.cfg)
  = Some (cabecalho ++ "111;erro;erro: KeyError" ++ nl).
Proof. vm_compute. repeat split; reflexivity. Qed.

(** C4, amended: when a key read while the session is established is
    absent from the selector map (campo_usuario, campo_senha, botao_entrar,
    menu_cadastro or menu_proposta), the run raises before any record is
    processed: once the stream log is initialised, it is the only file
    written and holds its header line alone, and no result is retained.
    When the oracle refuses no call, the exception raised is the [KeyError]
    of such a key. *)
Theorem C4_chave_de_sessao_ausente u s entrada saida cfg sel k w w0 :
  arquivos w !! selectors_file cfg = Some (ArqJson (JObjeto sel)) ->
  inicializar_streaming (streaming_path cfg) w = (Ok tt, w0) ->
  k ∈ chaves_de_sessao -> sel !! k = None ->
  exists e w',
    executar_extracao u s entrada saida cfg w = (Err e, w') /\
    arquivos w' = <[streaming_path cfg := ArqTexto cabecalho]> (arquivos w) /\
    texto_em w' (streaming_path cfg) = Some cabecalho /\
    var_resultados w' = [] /\
    (oraculo_livre w -> erro_de_chave sel e).
Proof.
  intros Hsel Hini Hk Hnone.
  rewrite executar_extracao_eq, (carregar_selectors_Ok _ _ _ Hsel), Hini.
  pose proof (inicializar_streaming_oraculo _ _ _ _ Hini) as Hor.
  apply inicializar_streaming_Ok_inv in Hini.
  unfold try_finally.
  destruct (bloco_try u s entrada saida cfg sel (mundo_do_try w0))
    as [r1 w1] eqn:E.
  destruct (bloco_try_sem_chave _ _ _ _ _ _ _ _ _ _ Hk Hnone E) as [[e ->] [Hf Hr]].
  destruct (bloco_finally w1) as [r2 w2] eqn:F.
  pose proof (bloco_finally_dados _ _ _ F) as [Hf' Hr'].
  simpl in Hf, Hr.
  assert (arquivos w2 = <[streaming_path cfg := ArqTexto cabecalho]> (arquivos w))
    as Ha by (by rewrite Hf', Hf).
  assert (texto_em w2 (streaming_path cfg) = Some cabecalho) as Ht
    by (unfold texto_em; by rewrite Ha, lookup_insert_eq).
  assert (var_resultados w2 = []) as Hv by (by rewrite Hr', Hr).
  assert (oraculo_livre w ->
          r2 = Ok tt /\ erro_de_chave sel e) as Hlivre.
  { intros Hl.
    assert (oraculo_livre (mundo_do_try w0)) as Hl0.
    { intros h a. simpl. unfold R_oraculo in Hor. rewrite Hor. apply Hl. }
    destruct (bloco_try_erro_de_chave u s entrada saida cfg sel k _ Hl0 Hk Hnone)
      as (e' & w1' & E' & He' & Hl1).
    rewrite E in E'. injection E' as <- <-.
    destruct (bloco_finally_livre w1 Hl1) as (w2' & F').
    rewrite F in F'. by injection F' as -> _. }
  destruct r2 as [[]|e2].
  - exists e, w2. repeat split; try done. intros Hl. by apply Hlivre.
  - exists e2, w2. repeat split; try done. intros Hl.
    by destruct (Hlivre Hl) as [? _].
Qed.

Lemma C4_witness :
  exists e w',
    executar_extracao "usuario" "segredo" "dados/entrada.xlsx" "saida/consolidado.xlsx"
      Exemplos.cfg
      (Exemplos.mundo Exemplos.portal_ok (delete "menu_proposta" Exemplos.sel_completo)
         ["111"])
    = (Err e, w') /\
    texto_em w' (streaming_path Exemplos.cfg) = Some cabecalho.
Proof.
  destruct (C4_chave_de_sessao_ausente "usuario" "segredo" "dados/entrada.xlsx"
              "saida/consolidado.xlsx" Exemplos.cfg
              (delete "menu_proposta" Exemplos.sel_completo) "menu_proposta"
              (Exemplos.mundo Exemplos.portal_ok
                 (delete "menu_proposta" Exemplos.sel_completo) ["111"])
              (snd (inicializar_streaming (streaming_path Exemplos.cfg)
                      (Exemplos.mundo Exemplos.portal_ok
                         (delete "menu_proposta" Exemplos.sel_completo) ["111"]))))
    as (e & w' & H1 & _ & H2 & _ & _).
  - vm_compute. reflexivity.
  - vm_compute. reflexivity.
  - unfold chaves_de_sessao. do 4 apply list_elem_of_further. apply list_elem_of_here.
  - vm_compute. reflexivity.
  - exists e, w'. split; [exact H1 | exact H2].
Defined.

(** When the oracle refuses nothing the exception of that run is the
    [KeyError] of the first reference to the absent key. *)
Example chave_de_sessao_KeyError :
  fst (executar_extracao "usuario" "segredo" "dados/entrada.xlsx"
         "saida/consolidado.xlsx" Exemplos.cfg
         (Exemplos.mundo Exemplos.portal_ok
            (delete "menu_proposta" Exemplos.sel_completo) ["111"]))
  = Err (KeyError "menu_proposta").
Proof. vm_compute. reflexivity. Qed.




(** ** A batch without valid records *)





(** ** The claims on concrete runs *)

Lemma C6_witness :
  exists r1 w1 r2 w2 h,
    bloco_try "usuario" "segredo" "dados/entrada.xlsx" "saida/consolidado.xlsx"
      Exemplos.cfg Exemplos.sel_completo
      (mundo_do_try
         (snd (inicializar_streaming (streaming_path Exemplos.cfg)
                 (Exemplos.mundo Exemplos.portal_sem_login Exemplos.sel_completo
                    ["111"]))))
    = (r1, w1) /\
    bloco_finally w1 = (r2, w2) /\
    historia w2 = h /\
    chamadas_quit h = sessoes_iniciadas h /\
    (sessoes_iniciadas h <= 1)%nat.
Proof.
  destruct (C6_quit_uma_vez_por_sessao "usuario" "segredo" "dados/entrada.xlsx"
              "saida/consolidado.xlsx" Exemplos.cfg Exemplos.sel_completo
              (Exemplos.mundo Exemplos.portal_sem_login Exemplos.sel_completo ["111"])
              (snd (inicializar_streaming (streaming_path Exemplos.cfg)
                      (Exemplos.mundo Exemplos.portal_sem_login Exemplos.sel_completo
                         ["111"]))))
    as (r1 & w1 & r2 & w2 & h & E & F & _ & Hh & Hq & Hs).
  - vm_compute. reflexivity.
  - vm_compute. reflexivity.
  - exists r1, w1, r2, w2, h. split; [exact E |]. split; [exact F |].
    split; [exact Hh |]. split; [exact Hq | exact Hs].
Defined.

(** The post-login marker never appears: no record is processed, the browser
    is quit once, and [main] ends with exit status 1. *)
Example login_sem_marcador :
  let r := main ∅ Exemplos.args
             (Exemplos.mundo Exemplos.portal_sem_login Exemplos.sel_completo ["111"]) in
  fst r = Ok 1 /\
  chamadas_quit (historia (snd r)) = 1%nat /\
  sessoes_iniciadas (historia (snd r)) = 1%nat /\
  texto_em (snd r) (streaming_path Exemplos.cfg) = Some cabecalho /\
  arquivos (snd r) !! "saida/consolidado.xlsx" = None.
Proof. vm_compute. repeat split; reflexivity. Qed.

(** The browser cannot be launched: [driver.quit()] is never called. *)
Example sem_driver :
  let r := Exemplos.executar Exemplos.portal_sem_driver Exemplos.sel_completo ["111"] in
  fst r = Err (Exc "WebDriverException" "") /\
  chamadas_quit (historia (snd r)) = 0%nat /\
  sessoes_iniciadas (historia (snd r)) = 0%nat.
Proof. vm_compute. repeat split; reflexivity. Qed.


(** * Further properties of the code *)

(** ** Inversion of the primitives *)

Lemma item_inv (d : gmap string string) k w v w' :
  item d k w = (Ok v, w') -> d !! k = Some v /\ w' = w.
Proof. unfold item. destruct (d !! k); [by intros [= <- <-] | discriminate]. Qed.

Lemma logging_inv n f a w r w' :
  logging n f a w = (r, w') ->
  r = Ok tt /\ w' = com_registro (registro w ++ [MkLog n f a])%list w.
Proof. by intros [= <- <-]. Qed.

Lemma agir_ret_inv {A} a (x : A) w y w' :
  (agir a ;;; ret x) w = (Ok y, w') ->
  y = x /\ oraculo w (historia w) a = None /\
  w' = com_historia (historia w ++ [(a, None)])%list w.
Proof.
  intros H. apply bind_inv_Ok in H as ([] & w1 & E & H).
  apply agir_Ok_inv in E as [Ho ->]. by injection H as <- <-.
Qed.

(** Take apart a chain of binds that returned, step by step. *)
Ltac passo_ok :=
  match goal with
  | H : bind _ _ _ = (Ok _, _) |- _ =>
      apply bind_inv_Ok in H as (? & ? & ? & H)
  | H : item _ _ _ = (Ok _, _) |- _ => apply item_inv in H as [? ->]
  | H : logging_info _ _ _ = (_, _) |- _ => apply logging_inv in H as [? ->]
  | H : logging _ _ _ _ = (_, _) |- _ => apply logging_inv in H as [? ->]
  | H : wait_presence _ _ _ = (Ok _, _) |- _ => apply agir_ret_inv in H as (-> & ? & ->)
  | H : wait_clickable _ _ _ = (Ok _, _) |- _ => apply agir_ret_inv in H as (-> & ? & ->)
  | H : find_element _ _ = (Ok _, _) |- _ => apply agir_ret_inv in H as (-> & ? & ->)
  | H : agir _ _ = (Ok ?u, _) |- _ => destruct u; apply agir_Ok_inv in H as [? ->]
  | H : ret _ _ = (Ok _, _) |- _ => injection H as <- <-
  end.

(** ** The calls of a session *)

(** X1: when [login] returns, the four keys it reads are present and the
    history has grown by exactly its ten calls, all of which returned, in the
    order of the source. *)
Theorem login_sequencia d sel url u s w w' :
  login d sel url u s w = (Ok tt, w') ->
  exists i_usuario i_senha i_entrar i_menu,
    sel !! "campo_usuario" = Some i_usuario /\
    sel !! "campo_senha" = Some i_senha /\
    sel !! "botao_entrar" = Some i_entrar /\
    sel !! "menu_cadastro" = Some i_menu /\
    historia w'
    = (historia w
         ++ todas_ok (chamadas_login url u s i_usuario i_senha i_entrar i_menu))%list.
Proof.
  unfold login, driver_get, clear, send_keys, click. intros H.
  repeat passo_ok.
  do 4 eexists. do 4 (split; [eassumption |]).
  simpl. by rewrite <- !app_assoc.
Qed.

(** X2: when [navegar_para_modulo_consulta] returns, both menu keys are
    present and the history has grown by exactly its four calls: wait and
    click on the first menu, wait and click on the second. *)
Theorem navegar_sequencia d sel w w' :
  navegar_para_modulo_consulta d sel w = (Ok tt, w') ->
  exists i_cadastro i_proposta,
    sel !! "menu_cadastro" = Some i_cadastro /\
    sel !! "menu_proposta" = Some i_proposta /\
    historia w'
    = (historia w ++ todas_ok (chamadas_navegacao i_cadastro i_proposta))%list.
Proof.
  unfold navegar_para_modulo_consulta, click. intros H.
  repeat passo_ok.
  do 2 eexists. do 2 (split; [eassumption |]).
  simpl. by rewrite <- !app_assoc.
Qed.

(** X3: when [extrair_dados_para_cpf] returns, the keys of the CPF field
    and of the grid are present, the result is the placeholder record of the
    CPF, and the history has grown by exactly the calls of the protocol: the
    query is triggered by the button when its key exists and by a blur of the
    CPF field otherwise. *)
Theorem extrair_sequencia d sel cpf t w r w' :
  extrair_dados_para_cpf d sel cpf t w = (Ok r, w') ->
  exists i_cpf i_grid,
    sel !! "campo_cpf" = Some i_cpf /\
    sel !! "grid_resultados" = Some i_grid /\
    r = dados_ok cpf /\
    historia w'
    = (historia w ++ todas_ok (chamadas_extracao sel cpf t i_cpf i_grid))%list.
Proof.
  unfold extrair_dados_para_cpf, clear, send_keys. intros H.
  apply bind_inv_Ok in H as ([] & w1 & E1 & H). apply logging_inv in E1 as [_ ->].
  apply bind_inv_Ok in H as (ic & w2 & E2 & H). apply item_inv in E2 as [Hic ->].
  apply bind_inv_Ok in H as (el & w3 & E3 & H).
  apply agir_ret_inv in E3 as (-> & _ & ->).
  apply bind_inv_Ok in H as ([] & w4 & E4 & H). apply agir_Ok_inv in E4 as [_ ->].
  apply bind_inv_Ok in H as ([] & w5 & E5 & H). apply agir_Ok_inv in E5 as [_ ->].
  apply bind_inv_Ok in H as ([] & w6 & Hd & H).
  apply bind_inv_Ok in H as (ig & w7 & E7 & H). apply item_inv in E7 as [Hig ->].
  apply bind_inv_Ok in H as (el2 & w8 & E8 & H).
  apply agir_ret_inv in E8 as (-> & _ & ->).
  apply bind_inv_Ok in H as ([] & w9 & E9 & H). apply logging_inv in E9 as [_ ->].
  injection H as <- <-.
  exists ic, ig. split; [done |]. split; [done |]. split; [done |].
  unfold chamadas_extracao, chamadas_disparo.
  destruct (sel !! "botao_consultar") as [ib|] eqn:Hb.
  - rewrite bool_decide_true in Hd by eauto. unfold click in Hd.
    apply bind_inv_Ok in Hd as (ib' & wa & Ea & Hd). apply item_inv in Ea as [Hib ->].
    apply bind_inv_Ok in Hd as (el3 & wb & Eb & Hd).
    apply agir_ret_inv in Eb as (-> & _ & ->).
    apply agir_Ok_inv in Hd as [_ ->].
    assert (ib' = ib) as -> by congruence.
    simpl. by rewrite <- !app_assoc.
  - rewrite bool_decide_false in Hd by (by intros [? ?]).
    unfold execute_blur in Hd. apply agir_Ok_inv in Hd as [_ ->].
    simpl. by rewrite <- !app_assoc.
Qed.

(** ** Loading the selectors and the input *)

(** X7: [carregar_selectors] changes nothing; it returns the object of a
    file that is a JSON object, raises [FileNotFoundError] naming the path
    exactly when the file is absent, and raises its [ValueError] exactly when
    the file is a JSON document that is no object. *)
Theorem carregar_selectors_casos path w :
  (forall r w', carregar_selectors path w = (r, w') -> w' = w) /\
  (forall d,
     fst (carregar_selectors path w) = Ok d <->
     arquivos w !! path = Some (ArqJson (JObjeto d))) /\
  (arquivos w !! path = None <->
   fst (carregar_selectors path w)
   = Err (FileNotFoundError ("Arquivo de seletores não encontrado: " ++ path))) /\
  (arquivos w !! path = Some (ArqJson JOutro) <->
   fst (carregar_selectors path w)
   = Err (ValueError "Arquivo de seletores inválido. Esperado um JSON com chave/valor.")).
Proof.
  split; [intros r w'; apply carregar_selectors_puro |].
  unfold carregar_selectors, bind, os_path_exists, json_load, raise, ret.
  destruct (arquivos w !! path) as [[c|[d0|]|p|]|] eqn:Hf; simpl;
    (rewrite ?bool_decide_true by eauto);
    (rewrite ?bool_decide_false by (by intros [? ?])); simpl; rewrite ?Hf; simpl;
    repeat split; intros; simplify_eq; try done.
Qed.

(** X8: [carregar_entrada] changes no file and calls nothing outside; it
    returns exactly for a workbook with a "CPF" column, giving its rows; an
    absent file raises [FileNotFoundError] naming the path, a workbook without
    the column raises the [ValueError] about it. *)
Theorem carregar_entrada_casos path w :
  (forall r w', carregar_entrada path w = (r, w') ->
     arquivos w' = arquivos w /\ historia w' = historia w) /\
  (forall regs,
     fst (carregar_entrada path w) = Ok regs <->
     exists p, arquivos w !! path = Some (ArqExcel p) /\ "CPF" ∈ colunas p /\
               regs = linhas p) /\
  (arquivos w !! path = None ->
   fst (carregar_entrada path w)
   = Err (FileNotFoundError ("Arquivo de entrada não encontrado: " ++ path))) /\
  (forall p, arquivos w !! path = Some (ArqExcel p) -> "CPF" ∉ colunas p ->
   fst (carregar_entrada path w)
   = Err (ValueError "A planilha de entrada deve conter, no mínimo, a coluna 'CPF'.")).
Proof.
  split.
  { intros r w' H. split.
    - by destruct (carregar_entrada_dados _ _ _ _ H).
    - pose proof (carregar_entrada_mantem R_neutra
                    (fun n f a _ => logging_neutra n f a) _ _ _ _ H) as (h & Hh & Hn).
      revert H Hh. unfold carregar_entrada, bind, os_path_exists, pd_read_excel,
        raise, ret, logging_info, logging.
      repeat case_match; intros; simplify_eq; done. }
  split.
  { intros regs. split.
    - intros H. destruct (carregar_entrada path w) as [r w'] eqn:E. simpl in H.
      subst r. apply carregar_entrada_Ok_inv in E as (p & ? & ? & ?). eauto.
    - intros (p & Hp & Hc & ->).
      destruct (carregar_entrada_Ok path w p Hp Hc) as (w' & E). by rewrite E. }
  unfold carregar_entrada, bind, os_path_exists, pd_read_excel, raise, ret.
  split.
  - intros Hf. rewrite Hf. rewrite bool_decide_false by (by intros [? ?]). done.
  - intros p Hf Hc. rewrite Hf. rewrite bool_decide_true by eauto. simpl.
    rewrite Hf. by rewrite bool_decide_false.
Qed.

(** ** Missing keys when no call is refused *)

Ltac correr Hl :=
  repeat (rewrite ?bind_eq;
          cbv [logging_info logging agir wait_presence wait_clickable find_element
               ret raise driver_get clear send_keys click execute_blur];
          simpl; rewrite ?Hl; simpl).

(** X4: when no call is refused, [login] returns if its four keys are
    present and otherwise raises the [KeyError] of the first one missing, in
    the order in which it reads them. *)
Theorem login_livre d sel url u s w :
  oraculo_livre w ->
  fst (login d sel url u s w)
  = match primeira_ausente sel chaves_login with
    | None => Ok tt
    | Some k => Err (KeyError k)
    end.
Proof.
  intros Hl. unfold login, item. simpl.
  destruct (sel !! "campo_usuario"); [| by correr Hl].
  destruct (sel !! "campo_senha"); [| by correr Hl].
  destruct (sel !! "botao_entrar"); [| by correr Hl].
  destruct (sel !! "menu_cadastro"); by correr Hl.
Qed.

(** X5: when no call is refused, [navegar_para_modulo_consulta] returns if
    both menu keys are present and otherwise raises the [KeyError] of the
    first one missing. *)
Theorem navegar_livre d sel w :
  oraculo_livre w ->
  fst (navegar_para_modulo_consulta d sel w)
  = match primeira_ausente sel chaves_navegacao with
    | None => Ok tt
    | Some k => Err (KeyError k)
    end.
Proof.
  intros Hl. unfold navegar_para_modulo_consulta, item. simpl.
  destruct (sel !! "menu_cadastro"); [| by correr Hl].
  destruct (sel !! "menu_proposta"); by correr Hl.
Qed.

(** X6: when no call is refused, [extrair_dados_para_cpf] returns the
    placeholder record if the keys of the CPF field and of the grid are
    present and otherwise raises the [KeyError] of the first one missing; the
    key of the query button is optional. *)
Theorem extrair_livre d sel cpf t w :
  oraculo_livre w ->
  fst (extrair_dados_para_cpf d sel cpf t w)
  = match primeira_ausente sel chaves_extracao with
    | None => Ok (dados_ok cpf)
    | Some k => Err (KeyError k)
    end.
Proof.
  intros Hl. unfold extrair_dados_para_cpf, item. simpl.
  destruct (sel !! "campo_cpf"); [| by correr Hl].
  destruct (sel !! "botao_consultar");
    [rewrite bool_decide_true by eauto | rewrite bool_decide_false by (by intros [? ?])];
    (destruct (sel !! "grid_resultados"); by correr Hl).
Qed.

(** ** Which rows are skipped *)

Lemma lstrip_vazia s : lstrip s = "" <-> so_espacos s = true.
Proof.
  induction s as [|a r IH]; simpl; [done |].
  destruct (is_space a); simpl; [exact IH |]. split; discriminate.
Qed.











(** ** Every row is accounted for *)

Lemma ignorados_app l1 l2 : ignorados (l1 ++ l2) = (ignorados l1 ++ ignorados l2)%list.
Proof. apply omap_app. Qed.

#[global] Instance R_avisos_po : PreOrder R_avisos.
Proof.
  split.
  - intros w. exists []. by rewrite app_nil_r.
  - intros a b c (l1 & E1 & F1) (l2 & E2 & F2). exists (l1 ++ l2)%list.
    rewrite E2, E1, <- app_assoc, ignorados_app, F1, F2. done.
Qed.

Lemma agir_avisos a : mantem R_avisos (agir a).
Proof. folha; exists []; by rewrite app_nil_r. Qed.
Lemma efeito_fs_avisos g : mantem R_avisos (efeito_fs g).
Proof. folha; exists []; by rewrite app_nil_r. Qed.
Lemma resultados_append_avisos d : mantem R_avisos (resultados_append d).
Proof. folha; exists []; by rewrite app_nil_r. Qed.
Lemma logging_avisos n f a :
  ignorado_de (MkLog n f a) = None -> mantem R_avisos (logging n f a).
Proof.
  intros Hp w r w' [= <- <-]. exists [MkLog n f a]. split; [done |].
  unfold ignorados. simpl. by rewrite Hp.
Qed.

Ltac avisos_passo :=
  cbv [wait_presence wait_clickable find_element clear send_keys click
       execute_blur driver_get logging_info logging_warning logging_exception];
  repeat first
    [ apply agir_avisos
    | apply efeito_fs_avisos
    | apply resultados_append_avisos
    | apply logging_avisos; reflexivity
    | mantem_passo ].

Lemma extrair_ou_erro_avisos d sel cpf : mantem R_avisos (extrair_ou_erro d sel cpf).
Proof. unfold extrair_ou_erro, extrair_dados_para_cpf. avisos_passo. Qed.

Lemma corpo_laco_avisos d sel path total idx row :
  str_vazia (cpf_de row) = false ->
  mantem R_avisos (corpo_laco d sel path total idx row).
Proof.
  intros Hv. unfold corpo_laco. rewrite Hv.
  apply (mantem_bind R_avisos); [apply extrair_ou_erro_avisos |].
  intros [[dados status] mensagem]. unfold append_streaming. avisos_passo.
Qed.

Lemma indices_partem idx registros :
  (length (indices_validos idx registros) + length (indices_ignorados idx registros))%nat
  = length registros.
Proof.
  revert idx. induction registros as [|row resto IH]; intros idx; simpl; [done |].
  destruct (str_vazia (cpf_de row)); simpl; rewrite <- (IH (idx + 1)); lia.
Qed.

Lemma indices_validos_cpfs idx registros :
  length (indices_validos idx registros) = length (cpfs_validos registros).
Proof.
  revert idx. induction registros as [|row resto IH]; intros idx; simpl; [done |].
  destruct (str_vazia (cpf_de row)) eqn:Hv.
  - rewrite cpfs_validos_vazio by done. apply IH.
  - rewrite cpfs_validos_valido by done. simpl. f_equal. apply IH.
Qed.

Lemma laco_ignorados d sel path total registros : forall idx w r w',
  laco d sel path total idx registros w = (r, w') ->
  exists is_,
    ignorados (registro w') = (ignorados (registro w) ++ is_)%list /\
    (forall u, r = Ok u -> is_ = indices_ignorados idx registros).
Proof.
  induction registros as [|row resto IH]; intros idx w r w'; simpl.
  - intros [= <- <-]. exists []. by rewrite app_nil_r.
  - rewrite bind_eq.
    destruct (str_vazia (cpf_de row)) eqn:Hv.
    + rewrite corpo_laco_vazio by done. simpl. intros H.
      apply IH in H as (is_ & E & Hok). exists (idx :: is_). split.
      * rewrite E. simpl. rewrite ignorados_app. simpl. by rewrite <- app_assoc.
      * intros u Hu. by rewrite (Hok u Hu).
    + destruct (corpo_laco d sel path total idx row w) as [[[]|e] w1] eqn:E1;
        pose proof (corpo_laco_avisos d sel path total idx row Hv _ _ _ E1)
          as (l & El & Hl).
      * intros H. apply IH in H as (is_ & E & Hok). exists is_. split; [| exact Hok].
        rewrite E, El, ignorados_app, Hl. by rewrite app_nil_r.
      * intros [= <- <-]. exists []. split; [| done].
        rewrite El, ignorados_app, Hl. by rewrite !app_nil_r.
Qed.

(** X10: when the loop returns, every row of the input was either processed or
    reported: the new warnings about skipped rows carry exactly the indices of
    the skipped rows, and the records retained and the rows skipped add up to
    the rows of the input. *)
Theorem laco_nada_se_perde d sel path registros w w' :
  laco d sel path (len registros) 1 registros w = (Ok tt, w') ->
  exists novos,
    var_resultados w' = (var_resultados w ++ novos)%list /\
    ignorados (registro w')
      = (ignorados (registro w) ++ indices_ignorados 1 registros)%list /\
    (length novos + length (indices_ignorados 1 registros))%nat = length registros.
Proof.
  intros H.
  destruct (laco_ignorados _ _ _ _ _ _ _ _ _ H) as (is_ & Ei & Hok).
  rewrite (Hok tt eq_refl) in Ei.
  apply laco_len_Ok in H as (outs & Hc & Hres & _ & _).
  exists (map registro_de outs). split; [exact Hres |]. split; [exact Ei |].
  rewrite length_map, <- (length_map fst outs), Hc, <- (indices_validos_cpfs 1).
  apply indices_partem.
Qed.

(** ** What a run writes *)

#[global] Instance R_cresce_po path : PreOrder (R_cresce path).
Proof.
  split.
  - intros w c H. exists "". by rewrite append_vazia.
  - intros a b c H1 H2 t Ht.
    destruct (H1 t Ht) as (s1 & E1). destruct (H2 _ E1) as (s2 & E2).
    exists (s1 ++ s2). by rewrite E2, append_assoc.
Qed.

#[global] Instance R_fora_po path saida : PreOrder (R_fora path saida).
Proof.
  split.
  - by intros w.
  - intros a b c [H1 H2] [H3 H4]. split.
    + intros q Hq. by apply H3, H1.
    + intros q Hp Hs. by rewrite H4, H2.
Qed.

Lemma R_dados_cresce path w w' : R_dados w w' -> R_cresce path w w'.
Proof.
  intros [Hf _] c Hc. exists "". unfold texto_em in *. by rewrite Hf, append_vazia.
Qed.

Lemma R_dados_fora path saida w w' : R_dados w w' -> R_fora path saida w w'.
Proof. intros [Hf _]. split; intros q; by rewrite Hf. Qed.

Lemma mesmos_arquivos_cresce path w w' : arquivos w' = arquivos w -> R_cresce path w w'.
Proof.
  intros Hf c Hc. exists "". unfold texto_em in *. by rewrite Hf, append_vazia.
Qed.

Lemma mesmos_arquivos_fora path saida w w' :
  arquivos w' = arquivos w -> R_fora path saida w w'.
Proof. intros Hf. split; intros q; by rewrite Hf. Qed.

Lemma agir_cresce path a : mantem (R_cresce path) (agir a).
Proof. folha; by apply mesmos_arquivos_cresce. Qed.
Lemma logging_cresce path n f a : mantem (R_cresce path) (logging n f a).
Proof. folha; by apply mesmos_arquivos_cresce. Qed.
Lemma resultados_append_cresce path d : mantem (R_cresce path) (resultados_append d).
Proof. folha; by apply mesmos_arquivos_cresce. Qed.
Lemma atribuir_driver_cresce path d : mantem (R_cresce path) (atribuir_driver d).
Proof. folha; by apply mesmos_arquivos_cresce. Qed.

Lemma agir_fora path saida a : mantem (R_fora path saida) (agir a).
Proof. folha; by apply mesmos_arquivos_fora. Qed.
Lemma logging_fora path saida n f a : mantem (R_fora path saida) (logging n f a).
Proof. folha; by apply mesmos_arquivos_fora. Qed.
Lemma resultados_append_fora path saida d :
  mantem (R_fora path saida) (resultados_append d).
Proof. folha; by apply mesmos_arquivos_fora. Qed.
Lemma atribuir_driver_fora path saida d : mantem (R_fora path saida) (atribuir_driver d).
Proof. folha; by apply mesmos_arquivos_fora. Qed.
Lemma atribuir_resultados_fora path saida l :
  mantem (R_fora path saida) (atribuir_resultados l).
Proof. folha; by apply mesmos_arquivos_fora. Qed.

(** Appending to the stream log. *)
Lemma efeito_anexar_cresce path l : mantem (R_cresce path) (efeito_fs (fs_anexar path l)).
Proof.
  intros w r w' [= <- <-] c Hc. exists l. unfold texto_em, fs_anexar in *. simpl.
  rewrite lookup_insert_eq. destruct (arquivos w !! path) as [[]|]; by simplify_eq.
Qed.

Lemma efeito_anexar_fora path saida l :
  mantem (R_fora path saida) (efeito_fs (fs_anexar path l)).
Proof.
  intros w r w' [= <- <-]. unfold R_fora, fs_anexar. simpl. split.
  - intros q Hq. destruct (decide (q = path)) as [->|Hne].
    + rewrite lookup_insert_eq. by eexists.
    + by rewrite lookup_insert_ne.
  - intros q Hp _. by rewrite lookup_insert_ne.
Qed.

(** Writing a file at another path. *)
Lemma efeito_insert_cresce path q f :
  q <> path -> mantem (R_cresce path) (efeito_fs (insert q f)).
Proof.
  intros Hne w r w' [= <- <-] c Hc. exists "". unfold texto_em in *. simpl.
  rewrite lookup_insert_ne by done. by rewrite append_vazia.
Qed.

Lemma efeito_insert_fora path saida f :
  mantem (R_fora path saida) (efeito_fs (insert saida f)).
Proof.
  intros w r w' [= <- <-]. unfold R_fora. simpl. split.
  - intros q Hq. destruct (decide (q = saida)) as [->|Hne].
    + rewrite lookup_insert_eq. by eexists.
    + by rewrite lookup_insert_ne.
  - intros q _ Hs. by rewrite lookup_insert_ne.
Qed.

Lemma efeito_insert_path_fora path saida f :
  mantem (R_fora path saida) (efeito_fs (insert path f)).
Proof.
  intros w r w' [= <- <-]. unfold R_fora. simpl. split.
  - intros q Hq. destruct (decide (q = path)) as [->|Hne].
    + rewrite lookup_insert_eq. by eexists.
    + by rewrite lookup_insert_ne.
  - intros q Hp _. by rewrite lookup_insert_ne.
Qed.

Ltac escritas_passo :=
  cbv [logging_info logging_warning logging_exception];
  repeat first
    [ apply agir_cresce | apply logging_cresce | apply resultados_append_cresce
    | apply atribuir_driver_cresce | apply efeito_anexar_cresce
    | apply efeito_insert_cresce; assumption
    | apply agir_fora | apply logging_fora | apply resultados_append_fora
    | apply atribuir_driver_fora | apply atribuir_resultados_fora
    | apply efeito_anexar_fora | apply efeito_insert_fora
    | apply efeito_insert_path_fora
    | apply (login_mantem (R_cresce _) (fun a _ => agir_cresce _ a)
               (fun n f a _ => logging_cresce _ n f a))
    | apply (navegar_mantem (R_cresce _) (fun a _ => agir_cresce _ a)
               (fun n f a _ => logging_cresce _ n f a))
    | apply (extrair_ou_erro_mantem (R_cresce _) (fun a _ => agir_cresce _ a)
               (fun n f a _ => logging_cresce _ n f a))
    | apply (carregar_entrada_mantem (R_cresce _)
               (fun n f a _ => logging_cresce _ n f a))
    | apply (login_mantem (R_fora _ _) (fun a _ => agir_fora _ _ a)
               (fun n f a _ => logging_fora _ _ n f a))
    | apply (navegar_mantem (R_fora _ _) (fun a _ => agir_fora _ _ a)
               (fun n f a _ => logging_fora _ _ n f a))
    | apply (extrair_ou_erro_mantem (R_fora _ _) (fun a _ => agir_fora _ _ a)
               (fun n f a _ => logging_fora _ _ n f a))
    | apply (carregar_entrada_mantem (R_fora _ _)
               (fun n f a _ => logging_fora _ _ n f a))
    | progress unfold append_streaming, iniciar_driver, driver_quit
    | mantem_passo ].


Lemma corpo_laco_fora path saida d sel total idx row :
  mantem (R_fora path saida) (corpo_laco d sel path total idx row).
Proof. unfold corpo_laco. escritas_passo. Qed.


Lemma laco_fora path saida d sel total registros : forall idx,
  mantem (R_fora path saida) (laco d sel path total idx registros).
Proof.
  induction registros as [|row resto IH]; intros idx; simpl.
  - apply (mantem_ret _).
  - apply (mantem_bind _); [apply corpo_laco_fora | intros _; apply IH].
Qed.


Lemma consolidar_fora path saida : mantem (R_fora path saida) (consolidar saida).
Proof. unfold consolidar. escritas_passo. Qed.


Lemma regiao_try_fora u s entrada saida cfg sel :
  mantem (R_fora (streaming_path cfg) saida)
    (try_finally (bloco_try u s entrada saida cfg sel) bloco_finally).
Proof.
  unfold bloco_try, bloco_finally.
  apply (mantem_try_finally _); [| escritas_passo].
  do 5 (apply (mantem_bind _); [escritas_passo | intros ?]).
  apply (mantem_bind _); [apply laco_fora | intros _].
  apply consolidar_fora.
Qed.

Lemma inicializar_streaming_fora path saida :
  mantem (R_fora path saida) (inicializar_streaming path).
Proof. unfold inicializar_streaming. escritas_passo. Qed.


(** X11: a run creates or changes no file but the stream log and the output
    workbook, and removes none: the selectors and the input workbook are only
    read. *)
Theorem executar_so_escreve_saidas u s entrada saida cfg w :
  let w' := snd (executar_extracao u s entrada saida cfg w) in
  (forall q, q <> streaming_path cfg -> q <> saida ->
             arquivos w' !! q = arquivos w !! q) /\
  (forall q, is_Some (arquivos w !! q) -> is_Some (arquivos w' !! q)).
Proof.
  cbv zeta.
  assert (R_fora (streaming_path cfg) saida w
            (snd (executar_extracao u s entrada saida cfg w))) as [H1 H2];
    [| by split].
  rewrite executar_extracao_eq.
  destruct (carregar_selectors (selectors_file cfg) w) as [[sel|e] ws]; [| reflexivity].
  destruct (inicializar_streaming (streaming_path cfg) w) as [[[]|e] w0] eqn:Ei.
  - transitivity (mundo_do_try w0).
    + apply (inicializar_streaming_fora _ saida) in Ei. exact Ei.
    + destruct (try_finally _ _ _) as [r w'] eqn:E. simpl.
      by eapply regiao_try_fora.
  - simpl. by eapply inicializar_streaming_fora.
Qed.


(** ** The stream log, call by call *)

(** X13: initialising the stream log makes two calls in order, creating the
    directory and opening the file for writing; when either is refused the
    previous file system is left as it was and nothing is logged. *)
Theorem inicializar_streaming_casos path w :
  let r := inicializar_streaming path w in
  match fst r with
  | Ok _ =>
      arquivos (snd r) = <[path := ArqTexto cabecalho]> (arquivos w) /\
      historia (snd r)
        = (historia w ++ todas_ok [AMakedirs path; AOpen path "w"])%list /\
      registro (snd r)
        = (registro w
             ++ [MkLog INFO "Arquivo de streaming inicializado em: %s" [AStr path]])%list
  | Err e =>
      arquivos (snd r) = arquivos w /\
      registro (snd r) = registro w /\
      (historia (snd r) = (historia w ++ [(AMakedirs path, Some e)])%list \/
       historia (snd r)
         = (historia w ++ [(AMakedirs path, None); (AOpen path "w", Some e)])%list)
  end.
Proof.
  cbv [inicializar_streaming os_makedirs_dirname escrever bind agir efeito_fs
       logging_info logging].
  simpl.
  destruct (oraculo w (historia w) (AMakedirs path)) as [e|] eqn:E1; simpl.
  { split; [done |]. split; [done |]. by left. }
  destruct (oraculo w (historia w ++ [(AMakedirs path, None)])%list (AOpen path "w"))
    as [e|] eqn:E2; simpl.
  - split; [done |]. split; [done |]. right. by rewrite <- app_assoc.
  - split; [done |]. split; [| done]. by rewrite <- app_assoc.
Qed.

(** X14: appending a line makes one call, opening the file for appending: when it
    returns, a text file grows by exactly the line and an absent file is
    created holding the line; when it is refused, no file changes.  No other
    path is touched, nothing is logged and no record is retained. *)
Theorem append_streaming_casos path cpf status mensagem w :
  let r := append_streaming path cpf status mensagem w in
  let linha := cpf ++ ";" ++ status ++ ";" ++ mensagem ++ nl in
  historia (snd r)
    = (historia w ++ [(AOpen path "a", oraculo w (historia w) (AOpen path "a"))])%list /\
  registro (snd r) = registro w /\
  var_resultados (snd r) = var_resultados w /\
  (forall q, q <> path -> arquivos (snd r) !! q = arquivos w !! q) /\
  match fst r with
  | Ok _ =>
      oraculo w (historia w) (AOpen path "a") = None /\
      (forall c, texto_em w path = Some c -> texto_em (snd r) path = Some (c ++ linha)) /\
      (arquivos w !! path = None -> texto_em (snd r) path = Some linha)
  | Err e =>
      oraculo w (historia w) (AOpen path "a") = Some e /\
      arquivos (snd r) = arquivos w
  end.
Proof.
  cbv [append_streaming anexar bind agir efeito_fs linha_streaming]. simpl.
  destruct (oraculo w (historia w) (AOpen path "a")) as [e|] eqn:E1; simpl.
  { done. }
  split; [done |]. split; [done |]. split; [done |].
  split.
  { intros q Hq. unfold fs_anexar. by rewrite lookup_insert_ne. }
  split; [done |]. unfold texto_em, fs_anexar. simpl. rewrite lookup_insert_eq.
  split.
  - intros c Hc. destruct (arquivos w !! path) as [[]|]; by simplify_eq.
  - by intros ->.
Qed.

(** ** Consolidation *)

(** X15: without retained records the consolidation calls nothing and writes
    nothing, it only warns.  With records it creates the directory and writes
    the workbook, in this order, and the workbook holds exactly the retained
    records; when either call is refused no file changes.  The retained
    records are never changed. *)
Theorem consolidar_casos saida w :
  let r := consolidar saida w in
  var_resultados (snd r) = var_resultados w /\
  (var_resultados w = [] ->
   r = (Ok tt, com_registro (registro w ++ [aviso_sem_resultados])%list w)) /\
  (var_resultados w <> [] ->
   match fst r with
   | Ok _ =>
       arquivos (snd r)
         = <[saida := ArqExcel (pd_DataFrame (var_resultados w))]> (arquivos w) /\
       historia (snd r)
         = (historia w ++ todas_ok [AMakedirs saida; AToExcel saida])%list
   | Err e =>
       arquivos (snd r) = arquivos w /\
       registro (snd r) = registro w /\
       (historia (snd r) = (historia w ++ [(AMakedirs saida, Some e)])%list \/
        historia (snd r)
          = (historia w ++ [(AMakedirs saida, None); (AToExcel saida, Some e)])%list)
   end).
Proof.
  cbv [consolidar ler_resultados os_makedirs_dirname to_excel bind agir efeito_fs
       logging_info logging_warning logging].
  simpl.
  destruct (var_resultados w) as [|x l] eqn:Er.
  { simpl. split; [done |]. split; [done |]. by intros []. }
  destruct (oraculo w (historia w) (AMakedirs saida)) as [e|] eqn:E1; simpl.
  { split; [done |]. split; [done |]. intros _. split; [done |]. split; [done |].
    by left. }
  destruct (oraculo w (historia w ++ [(AMakedirs saida, None)])%list (AToExcel saida))
    as [e|] eqn:E2; simpl.
  - split; [done |]. split; [done |]. intros _. split; [done |]. split; [done |].
    right. by rewrite <- app_assoc.
  - split; [done |]. split; [done |]. intros _. split; [done |].
    by rewrite <- app_assoc.
Qed.

(** ** The browser phases touch nothing but the browser *)

(** X16: logging in, navigating and extracting for one CPF never change a file,
    the retained records or the local [driver], and never launch or quit a
    browser, whatever their outcome. *)
Theorem navegador_so_navega d sel url u s cpf t w :
  let quadro w' :=
    R_dados w w' /\ R_driver w w' /\ R_neutra w w' /\ R_oraculo w w' in
  quadro (snd (login d sel url u s w)) /\
  quadro (snd (navegar_para_modulo_consulta d sel w)) /\
  quadro (snd (extrair_dados_para_cpf d sel cpf t w)).
Proof.
  cbv zeta. split; [| split].
  - destruct (login d sel url u s w) as [r w'] eqn:E. simpl.
    repeat split.
    + by apply (login_dados _ _ _ _ _ _ _ _ E).
    + by apply (login_dados _ _ _ _ _ _ _ _ E).
    + by apply (login_driver _ _ _ _ _ _ _ _ E).
    + revert E. apply (login_mantem R_neutra agir_neutra
                         (fun n f a _ => logging_neutra n f a)).
    + revert E. apply (login_mantem R_oraculo (fun a _ => agir_oraculo a)
                         (fun n f a _ => logging_oraculo n f a)).
  - destruct (navegar_para_modulo_consulta d sel w) as [r w'] eqn:E. simpl.
    repeat split.
    + by apply (navegar_dados _ _ _ _ _ E).
    + by apply (navegar_dados _ _ _ _ _ E).
    + by apply (navegar_driver _ _ _ _ _ E).
    + revert E. apply (navegar_mantem R_neutra agir_neutra
                         (fun n f a _ => logging_neutra n f a)).
    + revert E. apply (navegar_mantem R_oraculo (fun a _ => agir_oraculo a)
                         (fun n f a _ => logging_oraculo n f a)).
  - destruct (extrair_dados_para_cpf d sel cpf t w) as [r w'] eqn:E. simpl.
    repeat split.
    + revert E. apply (extrair_dados_mantem R_dados (fun a _ => agir_dados a)
                         (fun n f a _ => logging_dados n f a)).
    + revert E. apply (extrair_dados_mantem R_dados (fun a _ => agir_dados a)
                         (fun n f a _ => logging_dados n f a)).
    + revert E. apply (extrair_dados_mantem R_driver (fun a _ => agir_driver a)
                         (fun n f a _ => logging_driver n f a)).
    + revert E. apply (extrair_dados_mantem R_neutra agir_neutra
                         (fun n f a _ => logging_neutra n f a)).
    + revert E. apply (extrair_dados_mantem R_oraculo (fun a _ => agir_oraculo a)
                         (fun n f a _ => logging_oraculo n f a)).
Qed.

(** ** Configuration *)

(** X17: the configuration depends on the four variables only, each setting is the
    value of its variable when it is set, and every configuration is the one
    read from some environment. *)
Theorem obter_configuracoes_variaveis :
  (forall env1 env2,
     (forall k, k ∈ variaveis_lidas -> env1 !! k = env2 !! k) ->
     obter_configuracoes env1 = obter_configuracoes env2) /\
  (forall env v,
     (env !! "PORTAL_URL" = Some v -> portal_url (obter_configuracoes env) = v) /\
     (env !! "DRIVER_PATH" = Some v -> driver_path (obter_configuracoes env) = v) /\
     (env !! "SELECTORS_FILE" = Some v -> selectors_file (obter_configuracoes env) = v) /\
     (env !! "STREAMING_OUTPUT_PATH" = Some v ->
      streaming_path (obter_configuracoes env) = v)) /\
  (forall c, obter_configuracoes (ambiente_de c) = c).
Proof.
  split; [| split].
  - intros env1 env2 H. unfold obter_configuracoes, dict_get.
    rewrite !(H _) by (unfold variaveis_lidas; set_solver). done.
  - intros env v. unfold obter_configuracoes, dict_get. simpl.
    repeat split; by intros ->.
  - intros [a b c d]. reflexivity.
Qed.

(** ** The lines of the stream log *)

Lemma sem_separador_cons a s :
  sem_separador (String a s) = negb (Ascii.eqb a ";"%char) && sem_separador s.
Proof. reflexivity. Qed.

Lemma campo_unico (a c b d : string) :
  sem_separador a = true -> sem_separador c = true ->
  a ++ String ";"%char b = c ++ String ";"%char d -> a = c /\ b = d.
Proof.
  revert c. induction a as [|x a IH]; intros [|y c] Ha Hc H.
  - by injection H.
  - injection H as <- _. rewrite sem_separador_cons in Hc. done.
  - injection H as -> _. rewrite sem_separador_cons in Ha. done.
  - injection H as -> H. rewrite sem_separador_cons in Ha, Hc.
    apply andb_prop in Ha as [_ Ha]. apply andb_prop in Hc as [_ Hc].
    destruct (IH c Ha Hc H) as [-> ->]. done.
Qed.

Lemma append_nl_inj (a b : string) : a ++ nl = b ++ nl -> a = b.
Proof.
  revert b. induction a as [|x a IH]; intros [|y b] H; [done | | |].
  - injection H as <- H. by destruct b.
  - injection H as -> H. by destruct a.
  - injection H as -> H. by rewrite (IH b H).
Qed.

(** X18: a line of the stream log determines its three fields, as long as the CPF
    and the status hold no semicolon: the fields are written without any
    escaping. *)
Theorem linha_streaming_injetiva cpf1 status1 mensagem1 cpf2 status2 mensagem2 :
  sem_separador cpf1 = true -> sem_separador cpf2 = true ->
  sem_separador status1 = true -> sem_separador status2 = true ->
  linha_streaming cpf1 status1 mensagem1 = linha_streaming cpf2 status2 mensagem2 ->
  cpf1 = cpf2 /\ status1 = status2 /\ mensagem1 = mensagem2.
Proof.
  unfold linha_streaming. intros H1 H2 H3 H4 H.
  apply campo_unico in H as [-> H]; [| done | done].
  apply campo_unico in H as [-> H]; [| done | done].
  apply append_nl_inj in H as ->. done.
Qed.

(** ** The shape of a run *)

Lemma bloco_finally_eq w d :
  var_driver w = Some d ->
  bloco_finally w =
  match oraculo w (historia w) AQuit with
  | None =>
      (Ok tt,
       com_registro (registro w ++ [MkLog INFO "Driver finalizado." []])%list
         (com_historia (historia w ++ [(AQuit, None)])%list w))
  | Some e => (Err e, com_historia (historia w ++ [(AQuit, Some e)])%list w)
  end.
Proof.
  intros Hd.
  cbv [bloco_finally ler_driver bind driver_quit agir logging_info logging].
  rewrite Hd. by destruct (oraculo w (historia w) AQuit).
Qed.

(** X19: once the stream log is initialised, the calls of a run are bracketed by
    the launch and the quit of the browser: either the launch is refused and
    is the only call, or the launch comes first, [driver.quit()] comes last,
    and no call in between launches or quits a browser.  A refused
    [driver.quit()] becomes the outcome of the run, whatever the [try] block
    did. *)
Theorem executar_forma_da_historia u s entrada saida cfg sel w w0 r w' :
  carregar_selectors (selectors_file cfg) w = (Ok sel, w) ->
  inicializar_streaming (streaming_path cfg) w = (Ok tt, w0) ->
  executar_extracao u s entrada saida cfg w = (r, w') ->
  (exists e,
     r = Err e /\
     historia w' = (historia w0 ++ [(AEdge (driver_path cfg), Some e)])%list) \/
  (exists meio q,
     historia w'
       = (historia w0 ++ (AEdge (driver_path cfg), None) :: meio ++ [(AQuit, q)])%list /\
     forallb acao_neutra meio = true /\
     (forall e, q = Some e -> r = Err e) /\
     (q = None ->
      exists w1, bloco_try u s entrada saida cfg sel (mundo_do_try w0) = (r, w1))).
Proof.
  intros Hs Hi. rewrite executar_extracao_eq, Hs, Hi.
  unfold try_finally. rewrite bloco_try_eq, iniciar_driver_eq.
  destruct (oraculo (mundo_do_try w0) (historia (mundo_do_try w0))
              (AEdge (driver_path cfg))) as [e|] eqn:Eo.
  - rewrite bloco_finally_sem_driver by done.
    intros [= <- <-]. left. by exists e.
  - rewrite bind_eq. cbv [atribuir_driver].
    set (w1 := com_driver _ _).
    destruct ((login (Edge (driver_path cfg)) sel (portal_url cfg) u s ;;;
               navegar_para_modulo_consulta (Edge (driver_path cfg)) sel ;;;
               registros <- carregar_entrada entrada ;;
               laco (Edge (driver_path cfg)) sel (streaming_path cfg)
                 (len registros) 1 registros ;;;
               consolidar saida) w1) as [r1 w2] eqn:E.
    pose proof (sessao_neutra _ _ _ _ _ _ _ _ _ _ E) as (meio & Hm & Hn).
    pose proof (sessao_driver _ _ _ _ _ _ _ _ _ _ E) as Hd.
    unfold R_driver in Hd. simpl in Hd, Hm.
    rewrite (bloco_finally_eq w2 (Edge (driver_path cfg))) by done.
    destruct (oraculo w2 (historia w2) AQuit) as [e|] eqn:Eq; intros [= <- <-]; right.
    + exists meio, (Some e). simpl. rewrite Hm, <- !app_assoc. simpl.
      split; [done |]. split; [done |]. split; [by intros ? [= <-] |]. done.
    + exists meio, None. simpl. rewrite Hm, <- !app_assoc. simpl.
      split; [done |]. split; [done |]. split; [done |]. intros _. by exists w2.
Qed.

(** ** The entry point *)




(** ** When a run succeeds *)


(** ** Failures of single records never fail the run *)










(** ** The output written over the stream log *)

(** X24: when the output path is the path of the stream log, a run that returns
    with at least one processed record has replaced the log by the workbook:
    the streamed lines are lost.  Only a batch without processed records
    leaves the log, holding its header. *)
Theorem saida_sobre_o_streaming u s entrada cfg w w' :
  executar_extracao u s entrada (streaming_path cfg) cfg w = (Ok tt, w') ->
  exists p outs,
    arquivos w !! entrada = Some (ArqExcel p) /\
    map fst outs = cpfs_validos (linhas p) /\
    match outs with
    | [] => texto_em w' (streaming_path cfg) = Some cabecalho
    | _ :: _ =>
        texto_em w' (streaming_path cfg) = None /\
        arquivos w' !! streaming_path cfg
        = Some (ArqExcel (pd_DataFrame (map registro_de outs)))
    end.
Proof.
  intros H.
  apply executar_Ok_inv in H as (sel & w0 & w1 & Hs & Hi & Hb & Hf).
  apply inicializar_streaming_Ok_inv in Hi.
  apply bloco_try_Ok in Hb as (p & outs & Hp & _ & Hc & Hfs & _); [| done].
  apply bloco_finally_dados in Hf as [Hf _].
  simpl in Hp, Hfs. rewrite Hi in Hp, Hfs.
  exists p, outs. split.
  { destruct (decide (entrada = streaming_path cfg)) as [->|Hne].
    - rewrite lookup_insert_eq in Hp. discriminate.
    - by rewrite lookup_insert_ne in Hp. }
  split; [exact Hc |].
  unfold texto_em. rewrite Hf, Hfs.
  destruct outs as [|o outs]; simpl.
  - by rewrite lookup_insert_eq.
  - by rewrite lookup_insert_eq.
Qed.

(** ** The further properties on concrete runs *)

Lemma login_sequencia_witness :
  let w := Exemplos.mundo Exemplos.portal_ok Exemplos.sel_completo [] in
  exists w',
    login Exemplos.driver Exemplos.sel_completo "https://portal/login" "usuario" "segredo" w
    = (Ok tt, w') /\
    exists i_usuario i_senha i_entrar i_menu,
      historia w'
      = (historia w
           ++ todas_ok (chamadas_login "https://portal/login" "usuario" "segredo"
                          i_usuario i_senha i_entrar i_menu))%list.
Proof.
  intros w.
  exists (snd (login Exemplos.driver Exemplos.sel_completo "https://portal/login"
                 "usuario" "segredo" w)).
  assert (login Exemplos.driver Exemplos.sel_completo "https://portal/login"
            "usuario" "segredo" w
          = (Ok tt, snd (login Exemplos.driver Exemplos.sel_completo
                           "https://portal/login" "usuario" "segredo" w))) as E.
  { vm_compute. reflexivity. }
  split; [exact E |].
  destruct (login_sequencia _ _ _ _ _ _ _ E) as (a & b & c & d & _ & _ & _ & _ & H).
  exists a, b, c, d. exact H.
Defined.

Lemma navegar_sequencia_witness :
  let w := Exemplos.mundo Exemplos.portal_ok Exemplos.sel_completo [] in
  exists w',
    navegar_para_modulo_consulta Exemplos.driver Exemplos.sel_completo w = (Ok tt, w') /\
    exists i_cadastro i_proposta,
      historia w'
      = (historia w ++ todas_ok (chamadas_navegacao i_cadastro i_proposta))%list.
Proof.
  intros w.
  exists (snd (navegar_para_modulo_consulta Exemplos.driver Exemplos.sel_completo w)).
  assert (navegar_para_modulo_consulta Exemplos.driver Exemplos.sel_completo w
          = (Ok tt, snd (navegar_para_modulo_consulta Exemplos.driver
                           Exemplos.sel_completo w))) as E.
  { vm_compute. reflexivity. }
  split; [exact E |].
  destruct (navegar_sequencia _ _ _ _ E) as (a & b & _ & _ & H).
  exists a, b. exact H.
Defined.

Lemma extrair_sequencia_witness :
  let w := Exemplos.mundo Exemplos.portal_ok Exemplos.sel_completo ["111"] in
  exists r w',
    extrair_dados_para_cpf Exemplos.driver Exemplos.sel_completo "111" 20 w = (Ok r, w') /\
    r = dados_ok "111" /\
    exists i_cpf i_grid,
      historia w'
      = (historia w
           ++ todas_ok (chamadas_extracao Exemplos.sel_completo "111" 20 i_cpf i_grid))%list.
Proof.
  intros w.
  exists (dados_ok "111"),
    (snd (extrair_dados_para_cpf Exemplos.driver Exemplos.sel_completo "111" 20 w)).
  assert (extrair_dados_para_cpf Exemplos.driver Exemplos.sel_completo "111" 20 w
          = (Ok (dados_ok "111"),
             snd (extrair_dados_para_cpf Exemplos.driver Exemplos.sel_completo
                    "111" 20 w))) as E.
  { vm_compute. reflexivity. }
  split; [exact E |]. split; [reflexivity |].
  destruct (extrair_sequencia _ _ _ _ _ _ _ E) as (a & b & _ & _ & _ & H).
  exists a, b. exact H.
Defined.

Lemma login_livre_witness :
  fst (login Exemplos.driver (delete "botao_entrar" Exemplos.sel_sem_grid)
         "https://portal/login" "usuario" "segredo"
         (Exemplos.mundo Exemplos.portal_ok Exemplos.sel_completo []))
  = Err (KeyError "botao_entrar").
Proof.
  rewrite login_livre.
  - vm_compute. reflexivity.
  - intros h a. reflexivity.
Defined.

Lemma navegar_livre_witness :
  fst (navegar_para_modulo_consulta Exemplos.driver
         (delete "menu_proposta" Exemplos.sel_completo)
         (Exemplos.mundo Exemplos.portal_ok Exemplos.sel_completo []))
  = Err (KeyError "menu_proposta").
Proof.
  rewrite navegar_livre.
  - vm_compute. reflexivity.
  - intros h a. reflexivity.
Defined.

Lemma extrair_livre_witness :
  fst (extrair_dados_para_cpf Exemplos.driver Exemplos.sel_completo "111" 20
         (Exemplos.mundo Exemplos.portal_ok Exemplos.sel_completo ["111"]))
  = Ok (dados_ok "111").
Proof.
  rewrite extrair_livre.
  - vm_compute. reflexivity.
  - intros h a. reflexivity.
Defined.

Lemma laco_nada_se_perde_witness :
  let registros := linhas (Exemplos.planilha ["111"; ""; "222"; "  "]) in
  let w := Exemplos.mundo Exemplos.portal_ok Exemplos.sel_completo [] in
  exists w' novos,
    laco Exemplos.driver Exemplos.sel_completo "streaming.txt" (len registros) 1
      registros w = (Ok tt, w') /\
    var_resultados w' = (var_resultados w ++ novos)%list /\
    ignorados (registro w') = (ignorados (registro w) ++ [2; 4])%list /\
    (length novos + 2)%nat = 4%nat.
Proof.
  intros registros w.
  assert (laco Exemplos.driver Exemplos.sel_completo "streaming.txt" (len registros) 1
            registros w
          = (Ok tt, snd (laco Exemplos.driver Exemplos.sel_completo "streaming.txt"
                           (len registros) 1 registros w))) as E.
  { vm_compute. reflexivity. }
  destruct (laco_nada_se_perde _ _ _ _ _ _ E) as (novos & H1 & H2 & H3).
  eexists. exists novos. split; [exact E |]. split; [exact H1 |].
  split; [exact H2 | exact H3].
Defined.


Lemma linha_streaming_injetiva_witness :
  linha_streaming "111" "ok" "a;b" = linha_streaming "111" "ok" "a;b" /\
  ("111" = "111" /\ "ok" = "ok" /\ "a;b" = "a;b").
Proof.
  split; [reflexivity |].
  apply (linha_streaming_injetiva "111" "ok" "a;b" "111" "ok" "a;b"); reflexivity.
Defined.

Lemma executar_forma_da_historia_witness :
  let w := Exemplos.mundo Exemplos.portal_sem_login Exemplos.sel_completo ["111"] in
  let w0 := snd (inicializar_streaming (streaming_path Exemplos.cfg) w) in
  let r := fst (Exemplos.executar Exemplos.portal_sem_login Exemplos.sel_completo
                  ["111"]) in
  let w' := snd (Exemplos.executar Exemplos.portal_sem_login Exemplos.sel_completo
                   ["111"]) in
  (exists e,
     r = Err e /\
     historia w' = (historia w0 ++ [(AEdge (driver_path Exemplos.cfg), Some e)])%list) \/
  (exists meio q,
     historia w'
       = (historia w0
            ++ (AEdge (driver_path Exemplos.cfg), None) :: meio ++ [(AQuit, q)])%list /\
     forallb acao_neutra meio = true /\
     (forall e, q = Some e -> r = Err e)).
Proof.
  intros w w0 r w'.
  destruct (executar_forma_da_historia "usuario" "segredo" "dados/entrada.xlsx"
              "saida/consolidado.xlsx" Exemplos.cfg Exemplos.sel_completo w w0 r w')
    as [H | (meio & q & H1 & H2 & H3 & _)].
  - vm_compute. reflexivity.
  - vm_compute. reflexivity.
  - vm_compute. reflexivity.
  - left. exact H.
  - right. exists meio, q. split; [exact H1 |]. split; [exact H2 | exact H3].
Defined.



Lemma saida_sobre_o_streaming_witness :
  let w := Exemplos.mundo Exemplos.portal_ok Exemplos.sel_completo ["111"] in
  exists w' p outs,
    executar_extracao "usuario" "segredo" "dados/entrada.xlsx"
      (streaming_path Exemplos.cfg) Exemplos.cfg w = (Ok tt, w') /\
    arquivos w !! "dados/entrada.xlsx" = Some (ArqExcel p) /\
    map fst outs = cpfs_validos (linhas p) /\
    match outs with
    | [] => texto_em w' (streaming_path Exemplos.cfg) = Some cabecalho
    | _ :: _ =>
        texto_em w' (streaming_path Exemplos.cfg) = None /\
        arquivos w' !! streaming_path Exemplos.cfg
        = Some (ArqExcel (pd_DataFrame (map registro_de outs)))
    end.
Proof.
  intros w.
  assert (executar_extracao "usuario" "segredo" "dados/entrada.xlsx"
            (streaming_path Exemplos.cfg) Exemplos.cfg w
          = (Ok tt, snd (executar_extracao "usuario" "segredo" "dados/entrada.xlsx"
                           (streaming_path Exemplos.cfg) Exemplos.cfg w))) as E.
  { vm_compute. reflexivity. }
  destruct (saida_sobre_o_streaming _ _ _ _ _ _ E) as (p & outs & H1 & H2 & H3).
  eexists. exists p, outs. split; [exact E |]. split; [exact H1 |].
  split; [exact H2 | exact H3].
Defined.
